(** * Teaching assistant: enrollment model and discrepancy engine

    A shallow embedding of the parts of the teaching-assistant application
    that carry semantic content:

    - [Discrepancy]: [compareGoal] and [getStudentDiscrepancyInfo] of
      client/src/components/Evaluations.tsx;
    - [Scheduler]: the effect that recomputes [scheduledDate] in the same
      component;
    - [Model]: the server class models/Class.ts, with the records it
      imports ([Student], [Enrollment]);
    - [Server]: [cleanCPF] and the student routes of the server entry file;
    - [Heap]: arrays as references, for the copy made by [getEnrollments].

    JavaScript numbers are IEEE 754 doubles.  Counters and identifiers that
    only ever hold small integers are embedded as [nat] or [Z]; the one
    place where the source divides ([getStudentDiscrepancyInfo]) is embedded
    with Rocq's primitive binary64 floats, which follow the same standard. *)

From Stdlib Require Import ZArith Floats Ascii String.
From stdpp Require Import gmap strings list fin_maps pretty.

Local Open Scope string_scope.
Local Open Scope Z_scope.

(** ** JavaScript values used by the client code *)

(** A value of type [string | null | undefined]. *)
Inductive JsString :=
  | JNull
  | JUndefined
  | JStr (s : string).

(** Truthiness of such a value: only a non-empty string is truthy. *)
Definition truthy (a : JsString) : bool :=
  match a with
  | JStr s => negb (String.eqb s "")
  | JNull | JUndefined => false
  end.

(** [Math.round]: the integer nearest to the exact value of the double, a
    tie going to the larger integer.  The double is decoded to its sign,
    mantissa and exponent, so the rounding is done on the exact value.
    NaN and the infinities have no integer value; the callers below never
    produce them (see [percent_of_counts]). *)
Definition Math_round (x : float) : Z :=
  match Prim2SF x with
  | S754_finite sign m e =>
      let v := if sign then Z.neg m else Z.pos m in
      match e with
      | Z.neg p => Z.shiftr (2 * v + 2 ^ Z.pos p) (Z.pos p + 1)
      | _ => v * 2 ^ e
      end
  | _ => 0
  end.

(** The double holding a counter.  Exact for every counter below 2^53, far
    above the length of any array. *)
Definition float_of_nat (n : nat) : float :=
  PrimFloat.of_uint63 (Uint63.of_Z (Z.of_nat n)).

(** ** Plain JavaScript objects

    The client code uses object literals as maps: [hierarchy] in
    [compareGoal], the two records given to [getStudentDiscrepancyInfo], and
    the accumulator [{}] of the [reduce] calls.  Such an object has its own
    properties and, behind them, the members of [Object.prototype]. *)

(** A value that reaches the grade comparison: a string, null, undefined, or
    an object.  An object is given by the string its conversion to a
    primitive yields, which is all the code below ever asks of it. *)
Inductive JsValue :=
  | VUndefined
  | VNull
  | VStr (s : string)
  | VObj (text : string).

Definition truthy_value (v : JsValue) : bool :=
  match v with
  | VStr s => negb (String.eqb s "")
  | VObj _ => true
  | VUndefined | VNull => false
  end.

(** The source text of a built-in function, as [Function.prototype.toString]
    prints it.  Engines differ in the white space inside the braces; the
    comparisons below are decided before it, within the names. *)
Definition native_function (name : string) : string :=
  "function " +:+ name +:+ "() { [native code] }".

(** The methods of [Object.prototype]; the property name is also the name of
    the function. *)
Definition Object_prototype_methods : list string :=
  ["__defineGetter__"; "__defineSetter__"; "hasOwnProperty"; "__lookupGetter__";
   "__lookupSetter__"; "isPrototypeOf"; "propertyIsEnumerable"; "toString";
   "valueOf"; "toLocaleString"].

(** What a plain object inherits under a name: the prototype itself under
    [__proto__], the function [Object] under [constructor], the method of
    that name otherwise; each given by its conversion to a primitive. *)
Definition Object_prototype (k : string) : option string :=
  if decide (k = "__proto__") then Some "[object Object]"
  else if decide (k = "constructor") then Some (native_function "Object")
  else if bool_decide (k ∈ Object_prototype_methods) then Some (native_function k)
  else None.

(** The outcome of [o[k]] on a plain object with own properties of type
    [V]. *)
Inductive Slot (V : Type) :=
  | Own (v : V)
  | Inherited (text : string)
  | Missing.
Arguments Own {V}.
Arguments Inherited {V}.
Arguments Missing {V}.

(** [o[k]]: an own property hides an inherited one. *)
Definition js_get {V} (own : gmap string V) (k : string) : Slot V :=
  match own !! k with
  | Some v => Own v
  | None =>
      match Object_prototype k with
      | Some text => Inherited text
      | None => Missing
      end
  end.

(** [o[k] = v] for a string [v]: the setter of [__proto__] ignores a value
    that is not an object; any other name becomes an own property. *)
Definition js_set (own : gmap string string) (k v : string) : gmap string string :=
  if String.eqb k "__proto__" then own else <[k := v]> own.

(** The property key a value stands for when it is used as an index. *)
Definition to_key (v : JsValue) : string :=
  match v with
  | VStr s => s
  | VObj text => text
  | VNull => "null"
  | VUndefined => "undefined"
  end.

Module Discrepancy.

(** *** compareGoal (Evaluations.tsx) *)

(** The own properties of
    [const hierarchy: Record<string, number> = { MA: 3, MPA: 2, MANA: 1 }]. *)
Definition hierarchy : gmap string Z :=
  {[ "MA" := 3; "MPA" := 2; "MANA" := 1 ]}.

(** The value of [t] and [s] when it is not null: a number of the table, or
    an inherited member of the table object. *)
Inductive Level :=
  | LNum (n : Z)
  | LObj (text : string).

(** [e && hierarchy[e] ? hierarchy[e] : null] *)
Definition level (e : JsValue) : option Level :=
  if truthy_value e then
    match js_get hierarchy (to_key e) with
    | Own n => if n =? 0 then None else Some (LNum n)
    | Inherited text => Some (LObj text)
    | Missing => None
    end
  else None.

(** [t < s]: two numbers are compared as numbers; two objects are converted
    to their strings, which are compared as strings; a number against an
    object compares with NaN (the text of a function or of
    ["[object Object]"] is no numeral) and is false. *)
Definition less_than (t s : Level) : bool :=
  match t, s with
  | LNum a, LNum b => a <? b
  | LObj a, LObj b => String.ltb a b
  | _, _ => false
  end.

Definition compareGoal (teacherEval selfEval : JsValue) : bool :=
  let t := level teacherEval in
  let s := level selfEval in
  match t, s with
  | Some t, Some s => less_than t s
  | _, _ => false
  end.

(** *** getStudentDiscrepancyInfo (Evaluations.tsx) *)

Record DiscrepancyInfo := mkInfo { percentage : Z; highlight : bool }.

(** [record[goal] || ""] on a [Record<string, string>]. *)
Definition grade_at (record : gmap string string) (goal : string) : JsValue :=
  match js_get record goal with
  | Own g => VStr g
  | Inherited text => VObj text
  | Missing => VStr ""
  end.

(** One iteration of the [for ... of] loop over the counters
    [(total, discrepant)]. *)
Definition count_goal (studentEvaluations studentSelfEvaluations : gmap string string)
    (acc : nat * nat) (goal : string) : nat * nat :=
  let '(total, discrepant) := acc in
  let teacherEval := grade_at studentEvaluations goal in
  let selfEval := grade_at studentSelfEvaluations goal in
  if truthy_value teacherEval || truthy_value selfEval then
    (S total,
     if compareGoal teacherEval selfEval then S discrepant else discrepant)
  else acc.

Definition count_goals (evaluationGoals : list string)
    (studentEvaluations studentSelfEvaluations : gmap string string) : nat * nat :=
  foldl (count_goal studentEvaluations studentSelfEvaluations) (0%nat, 0%nat) evaluationGoals.

(** [total === 0 ? 0 : Math.round((discrepant / total) * 100)] *)
Definition percent_of_counts (total discrepant : nat) : Z :=
  if (total =? 0)%nat then 0
  else Math_round ((float_of_nat discrepant / float_of_nat total) * 100)%float.

Definition getStudentDiscrepancyInfo (evaluationGoals : list string)
    (studentEvaluations studentSelfEvaluations : gmap string string) : DiscrepancyInfo :=
  let '(total, discrepant) :=
    count_goals evaluationGoals studentEvaluations studentSelfEvaluations in
  let percentage := percent_of_counts total discrepant in
  {| percentage := percentage; highlight := (25 <? percentage)%Z |}.

(** The goals the loop counts, and those among them it counts as
    discrepant. *)
Definition counted (t s : gmap string string) (goal : string) : bool :=
  truthy_value (grade_at t goal) || truthy_value (grade_at s goal).

Definition flagged (t s : gmap string string) (goal : string) : bool :=
  compareGoal (grade_at t goal) (grade_at s goal).

(** *** The specification's reading *)

(** The three ordinal levels, MANA < MPA < MA. *)
Inductive Grade := MANA | MPA | MA.

Definition rank (g : Grade) : Z :=
  match g with MANA => 1 | MPA => 2 | MA => 3 end.

(** Membership in {MANA, MPA, MA}. *)
Definition grade_named (k : string) : option Grade :=
  if decide (k = "MANA") then Some MANA
  else if decide (k = "MPA") then Some MPA
  else if decide (k = "MA") then Some MA
  else None.

(** The grade a value is; anything else (null, undefined, the empty string,
    another string, an object) is no grade. *)
Definition grade_of (e : JsValue) : option Grade :=
  match e with
  | VStr k => grade_named k
  | VObj _ | VNull | VUndefined => None
  end.

(** The grade a record holds for a goal, empty when it holds none. *)
Definition recorded (record : gmap string string) (goal : string) : string :=
  default "" (record !! goal).

(** A goal is considered when at least one side has a non-empty grade. *)
Definition is_considered (t s : gmap string string) (goal : string) : bool :=
  negb (String.eqb (recorded t goal) "") || negb (String.eqb (recorded s goal) "").

Definition considered (goals : list string) (t s : gmap string string) : list string :=
  List.filter (is_considered t s) goals.

Definition discrepant_goals (goals : list string) (t s : gmap string string) : list string :=
  List.filter (fun g => compareGoal (VStr (recorded t g)) (VStr (recorded s g)))
              (considered goals t s).

(** round(100 * d / c) in exact arithmetic, a tie going up; 0 when c = 0. *)
Definition round_percent (d c : nat) : Z :=
  if (c =? 0)%nat then 0
  else (200 * Z.of_nat d + Z.of_nat c) / (2 * Z.of_nat c).

(** studentDiscrepancy as the specification words it. *)
Definition studentDiscrepancy_spec (goals : list string) (t s : gmap string string)
    : DiscrepancyInfo :=
  let p := round_percent (length (discrepant_goals goals t s))
                         (length (considered goals t s)) in
  {| percentage := p; highlight := (25 <? p)%Z |}.

End Discrepancy.

(** ** The scheduler's confirmation date (Evaluations.tsx) *)

Module Scheduler.

(** The state variables [days], [hours], [minutes] have type [number | ""]:
    the number typed into the field, or the empty string of a cleared field.
    The numbers are embedded as integers, which is what the three number
    fields deliver; integer arithmetic on doubles is exact below 2^53. *)
Inductive NumberField :=
  | Cleared
  | Num (n : Z).

(** [Number(x) || 0]: [Number("")] is 0. *)
Definition Number_or_0 (x : NumberField) : Z :=
  match x with
  | Cleared => 0
  | Num n => n
  end.

(** A [Date] object: its time value in milliseconds since the epoch, or an
    invalid date (time value NaN). *)
Inductive Date :=
  | ValidDate (ms : Z)
  | InvalidDate.

(** The largest time value a [Date] holds: 100 000 000 days. *)
Definition maxTimeValue : Z := 8640000000000000.

(** [new Date(tv)] on a number: the time value is clipped to the range of
    [Date]. *)
Definition new_Date (tv : Z) : Date :=
  if Z.abs tv <=? maxTimeValue then ValidDate tv else InvalidDate.

(** The scheduling part of the component state.  ['rest] stands for the
    state variables the effect does not read ([viewMode], [classes],
    [selectedClass], [modal] and so on). *)
Record State (rest : Type) := mkState {
  showScheduler : bool;
  scheduledGoal : string;
  days : NumberField;
  hours : NumberField;
  minutes : NumberField;
  scheduledDate : option Date;
  others : rest
}.
Arguments mkState {rest}.
Arguments showScheduler {rest}.
Arguments scheduledGoal {rest}.
Arguments days {rest}.
Arguments hours {rest}.
Arguments minutes {rest}.
Arguments scheduledDate {rest}.
Arguments others {rest}.

Definition setScheduledDate {rest} (v : option Date) (st : State rest) : State rest :=
  mkState (showScheduler st) (scheduledGoal st) (days st) (hours st) (minutes st)
          v (others st).

Definition totalMs (days hours minutes : NumberField) : Z :=
  let d := Number_or_0 days in
  let h := Number_or_0 hours in
  let m := Number_or_0 minutes in
  ((d * 24 + h) * 60 + m) * 60 * 1000.

(** The body of the effect that runs whenever [days], [hours] or [minutes]
    changes; [now] is the value of [Date.now()]. *)
Definition updateScheduledDate {rest} (now : Z) (st : State rest) : State rest :=
  let totalMs := totalMs (days st) (hours st) (minutes st) in
  if totalMs >? 0 then setScheduledDate (Some (new_Date (now + totalMs))) st
  else setScheduledDate None st.

End Scheduler.

(** ** Results of operations that can throw *)

Inductive result (E A : Type) :=
  | Ok (a : A)
  | Err (e : E).
Arguments Ok {E A}.
Arguments Err {E A}.

Definition bind {E A B} (r : result E A) (k : A -> result E B) : result E B :=
  match r with
  | Ok a => k a
  | Err e => Err e
  end.

(** [xs.map(f)] where [f] may throw: the first exception ends the loop. *)
Fixpoint mapM {E A B} (f : A -> result E B) (xs : list A) : result E (list B) :=
  match xs with
  | [] => Ok []
  | x :: xs => bind (f x) (fun y => bind (mapM f xs) (fun ys => Ok (y :: ys)))
  end.

(** [xs.findIndex(p)]: the index of the first element satisfying [p], or -1. *)
Fixpoint findIndex_from {A} (p : A -> bool) (xs : list A) (i : Z) : Z :=
  match xs with
  | [] => -1
  | x :: xs => if p x then i else findIndex_from p xs (i + 1)
  end.

Definition findIndex {A} (p : A -> bool) (xs : list A) : Z := findIndex_from p xs 0.

(** [xs.splice(index, 1)] for an index within the array. *)
Definition splice1 {A} (index : Z) (xs : list A) : list A :=
  delete (Z.to_nat index) xs.

(** ** The server's class model (models/Class.ts) *)

Module Model.

(** Modelled from the spec: the Student record [{ name, cpf, email }] of
    models/Student.ts, which is not among the sources.  [getCPF] returns the
    stored identity key. *)
Record Student := mkStudent { name : string; cpf : string; email : string }.

Definition getCPF (s : Student) : string := cpf s.

Record StudentJSON := mkStudentJSON { j_name : string; j_cpf : string; j_email : string }.

Definition Student_toJSON (s : Student) : StudentJSON :=
  mkStudentJSON (name s) (getCPF s) (email s).

(** One evaluation record as the client reads it: [{ goal, grade }]. *)
Record EvaluationJSON := mkEvaluationJSON { goal : string; grade : string }.

(** Modelled from the spec: the Enrollment of models/Enrollment.ts, which is
    not among the sources: a student with two keyed maps from goal to grade,
    one for the teacher's evaluations and one for the self-evaluations. *)
Record Enrollment := mkEnrollment {
  student : Student;
  evaluations : gmap string string;
  selfEvaluations : gmap string string
}.

(** [new Enrollment(student)]: both maps empty. *)
Definition new_Enrollment (s : Student) : Enrollment := mkEnrollment s ∅ ∅.

Definition getStudent (e : Enrollment) : Student := student e.

Record EnrollmentJSON := mkEnrollmentJSON {
  j_student : StudentJSON;
  j_evaluations : list EvaluationJSON;
  j_selfEvaluations : list EvaluationJSON
}.

Definition records_of_map (m : gmap string string) : list EvaluationJSON :=
  (fun kv => mkEvaluationJSON kv.1 kv.2) <$> map_to_list m.

(** Reading the records back into a keyed map; a later record for the same
    goal overwrites an earlier one. *)
Definition map_of_records (l : list EvaluationJSON) : gmap string string :=
  foldl (fun m r => <[goal r := grade r]> m) ∅ l.

(** Modelled from the spec: the JSON form of an Enrollment, its student and
    the two lists of [{ goal, grade }] records. *)
Definition Enrollment_toJSON (e : Enrollment) : EnrollmentJSON :=
  mkEnrollmentJSON (Student_toJSON (student e))
                   (records_of_map (evaluations e))
                   (records_of_map (selfEvaluations e)).

(** Modelled from the spec: [Enrollment.fromJSON(data, student)] binds the
    given student to the evaluation maps read from the data. *)
Definition Enrollment_fromJSON (data : EnrollmentJSON) (s : Student) : Enrollment :=
  mkEnrollment s (map_of_records (j_evaluations data))
                 (map_of_records (j_selfEvaluations data)).

(** The class.  The private array [enrollments] is embedded by its contents;
    module [Heap] below treats arrays as references. *)
Record Class := mkClass {
  topic : string;
  semester : Z;
  year : Z;
  enrollments : list Enrollment
}.

(** [new Class(topic, semester, year, enrollments)]: the fields are stored
    as given. *)
Definition new_Class (topic : string) (semester year : Z)
    (enrollments : list Enrollment) : Class :=
  mkClass topic semester year enrollments.

(** [new Class(topic, semester, year)]: the default argument [[]]. *)
Definition new_Class_default (topic : string) (semester year : Z) : Class :=
  new_Class topic semester year [].

Definition getEnrollments (c : Class) : list Enrollment := enrollments c.

(** [`${this.topic}-${this.year}-${this.semester}`]: an integer that a
    double holds exactly is printed in decimal notation, with a minus sign
    when it is negative. *)
Definition getClassId (c : Class) : string :=
  topic c +:+ "-" +:+ pretty (year c) +:+ "-" +:+ pretty (semester c).

Definition has_cpf (studentCPF : string) (e : Enrollment) : bool :=
  String.eqb (getCPF (getStudent e)) studentCPF.

Definition findEnrollmentByStudentCPF (c : Class) (studentCPF : string) : option Enrollment :=
  List.find (has_cpf studentCPF) (enrollments c).

(** Methods that change the class return their outcome with the class after
    the call. *)
Definition addEnrollment (c : Class) (s : Student) : result string Enrollment * Class :=
  let existingEnrollment := findEnrollmentByStudentCPF c (getCPF s) in
  match existingEnrollment with
  | Some _ => (Err "Student is already enrolled in this class", c)
  | None =>
      let enrollment := new_Enrollment s in
      (Ok enrollment,
       mkClass (topic c) (semester c) (year c) (enrollments c ++ [enrollment]))
  end.

Definition removeEnrollment (c : Class) (studentCPF : string) : bool * Class :=
  let index := findIndex (has_cpf studentCPF) (enrollments c) in
  if index =? -1 then (false, c)
  else (true, mkClass (topic c) (semester c) (year c) (splice1 index (enrollments c))).

Definition getEnrolledStudents (c : Class) : list Student :=
  getStudent <$> enrollments c.

(** The JSON form of a class.  [j_enrollments] is optional because
    [fromJSON] accepts data without that property; [toJSON] always sets it. *)
Record ClassJSON := mkClassJSON {
  j_id : string;
  j_topic : string;
  j_semester : Z;
  j_year : Z;
  j_enrollments : option (list EnrollmentJSON)
}.

Definition toJSON (c : Class) : ClassJSON :=
  mkClassJSON (getClassId c) (topic c) (semester c) (year c)
              (Some (Enrollment_toJSON <$> enrollments c)).

Definition enrollment_of_data (allStudents : list Student) (enrollmentData : EnrollmentJSON)
    : result string Enrollment :=
  let student :=
    List.find (fun s => String.eqb (getCPF s) (j_cpf (j_student enrollmentData)))
              allStudents in
  match student with
  | None =>
      Err ("Student with CPF " +:+ j_cpf (j_student enrollmentData) +:+ " not found")
  | Some student => Ok (Enrollment_fromJSON enrollmentData student)
  end.

Definition fromJSON (data : ClassJSON) (allStudents : list Student) : result string Class :=
  let enrollments :=
    match j_enrollments data with
    | Some l => mapM (enrollment_of_data allStudents) l
    | None => Ok []
    end in
  bind enrollments (fun enrollments =>
    Ok (new_Class (j_topic data) (j_semester data) (j_year data) enrollments)).

(** *** The invariant of the data model *)

Definition cpfs (l : list Enrollment) : list string :=
  (fun e => getCPF (getStudent e)) <$> l.

(** At most one Enrollment per distinct student CPF. *)
Definition one_per_cpf (c : Class) : Prop := NoDup (cpfs (enrollments c)).

(** What the round trip compares: the student identity and the two
    evaluation maps of each enrollment. *)
Definition enrollment_content (e : Enrollment)
    : string * gmap string string * gmap string string :=
  (getCPF (getStudent e), evaluations e, selfEvaluations e).

(** *** recordEvaluation *)

Inductive EvalKind := TeacherEval | SelfEval.

(** The failure taxonomy of the specification. *)
Inductive Failure :=
  | ValidationError (what : string)
  | NotFoundError (what : string)
  | ConflictError (what : string).

Definition valid_grades : list string := ["MANA"; "MPA"; "MA"].

Definition kind_map (kind : EvalKind) (e : Enrollment) : gmap string string :=
  match kind with
  | TeacherEval => evaluations e
  | SelfEval => selfEvaluations e
  end.

Definition set_kind_map (kind : EvalKind) (m : gmap string string) (e : Enrollment)
    : Enrollment :=
  match kind with
  | TeacherEval => mkEnrollment (student e) m (selfEvaluations e)
  | SelfEval => mkEnrollment (student e) (evaluations e) m
  end.

Definition replace_enrollment (studentId : string) (e' : Enrollment) (c : Class) : Class :=
  mkClass (topic c) (semester c) (year c)
          (<[Z.to_nat (findIndex (has_cpf studentId) (enrollments c)) := e']> (enrollments c)).

(** Modelled from the spec: [recordEvaluation(class, studentId, goal, grade,
    kind)], whose server code is not among the sources (the server file
    keeps only a commented-out route of the same shape on students): look
    the enrollment up, fail when it is absent; an empty grade removes the
    record for the goal; any other grade must be one of the three levels
    and is then inserted or overwritten. *)
Definition recordEvaluation (c : Class) (studentId goal grade : string) (kind : EvalKind)
    : result Failure () * Class :=
  match findEnrollmentByStudentCPF c studentId with
  | None => (Err (NotFoundError "EnrollmentNotFound"), c)
  | Some e =>
      if String.eqb grade "" then
        (Ok (), replace_enrollment studentId
                  (set_kind_map kind (delete goal (kind_map kind e)) e) c)
      else if bool_decide (grade ∈ valid_grades) then
        (Ok (), replace_enrollment studentId
                  (set_kind_map kind (<[goal := grade]> (kind_map kind e)) e) c)
      else (Err (ValidationError "InvalidGrade"), c)
  end.

End Model.

(** ** The server's student routes *)

Module Server.
Import Model.

(** [cpf.replace(/[.-]/g, '')] *)
Fixpoint cleanCPF (cpf : string) : string :=
  match cpf with
  | EmptyString => EmptyString
  | String ch rest =>
      if Ascii.eqb ch "." || Ascii.eqb ch "-" then cleanCPF rest
      else String ch (cleanCPF rest)
  end%char.

Fixpoint has_punctuation (cpf : string) : bool :=
  match cpf with
  | EmptyString => false
  | String ch rest => Ascii.eqb ch "." || Ascii.eqb ch "-" || has_punctuation rest
  end%char.

Section Routes.
(** The student store (models/StudentSet.ts) is not among the sources; the
    routes are embedded over any store with these two methods. *)
Variable StudentSet : Type.
Variable findStudentByCPF : StudentSet -> string -> option Student.
Variable removeStudent : StudentSet -> string -> bool * StudentSet.

(** A response: its status and, for a student, the JSON body. *)
Inductive Response :=
  | Json (status : Z) (body : StudentJSON)
  | JsonError (status : Z) (error : string)
  | NoContent.

(** GET /api/students/:cpf *)
Definition get_student (studentSet : StudentSet) (cpf : string) : Response :=
  let cleanedCPF := cleanCPF cpf in
  match findStudentByCPF studentSet cleanedCPF with
  | None => JsonError 404 "Student not found"
  | Some student => Json 200 (Student_toJSON student)
  end.

(** DELETE /api/students/:cpf *)
Definition delete_student (studentSet : StudentSet) (cpf : string)
    : Response * StudentSet :=
  let cleanedCPF := cleanCPF cpf in
  let '(success, studentSet') := removeStudent studentSet cleanedCPF in
  if success then (NoContent, studentSet')
  else (JsonError 404 "Student not found", studentSet').
End Routes.

End Server.

(** ** Arrays as references *)

Module Heap.
Import Model.

(** A heap of enrollment arrays.  A reference that is not allocated reads
    as the empty array. *)
Abbreviation heap := (gmap positive (list Enrollment)).

Definition contents (h : heap) (r : positive) : list Enrollment :=
  default [] (h !! r).

(** A class object: the field [enrollments] holds a reference. *)
Record ClassObj := mkClassObj {
  o_topic : string;
  o_semester : Z;
  o_year : Z;
  o_enrollments : positive
}.

(** The class a class object stands for in a heap. *)
Definition class_of (o : ClassObj) (h : heap) : Class :=
  mkClass (o_topic o) (o_semester o) (o_year o) (contents h (o_enrollments o)).

(** A new array with the given elements. *)
Definition alloc (l : list Enrollment) (h : heap) : positive * heap :=
  let r := fresh (dom h) in (r, <[r := l]> h).

(** [return [...this.enrollments]] *)
Definition getEnrollments (o : ClassObj) (h : heap) : positive * heap :=
  alloc (contents h (o_enrollments o)) h.

(** What a caller can do to an array it holds. *)
Inductive ArrayOp :=
  | Push (e : Enrollment)
  | Pop
  | Shift
  | Unshift (e : Enrollment)
  | Splice (start deleteCount : nat) (items : list Enrollment)
  | SetLength (n : nat).

Definition apply_op (op : ArrayOp) (l : list Enrollment) : list Enrollment :=
  match op with
  | Push e => l ++ [e]
  | Pop => take (length l - 1) l
  | Shift => drop 1 l
  | Unshift e => e :: l
  | Splice start deleteCount items =>
      take start l ++ items ++ drop (start + deleteCount) l
  | SetLength n => take n l
  end.

Definition mutate (r : positive) (h : heap) (op : ArrayOp) : heap :=
  <[r := apply_op op (contents h r)]> h.

Definition mutate_all (r : positive) (ops : list ArrayOp) (h : heap) : heap :=
  foldl (mutate r) h ops.

End Heap.

(** ** Concrete inputs used in the examples below *)

Module Inputs.
Import Discrepancy.

(** The example of the specification: goals G1..G6, teacher grades
    [{G1: MA, G2: MPA}], self grades [{G1: MA, G2: MA, G3: MANA}]. *)
Definition goals6 : list string := ["G1"; "G2"; "G3"; "G4"; "G5"; "G6"].
Definition teacher6 : gmap string string := {[ "G1" := "MA"; "G2" := "MPA" ]}.
Definition self6 : gmap string string := {[ "G1" := "MA"; "G2" := "MA"; "G3" := "MANA" ]}.

(** Forty goals G1..G40; the student claims MA everywhere, the teacher gives
    MPA on the first 23 goals and MA on the other 17. *)
Definition goals40 : list string :=
  (fun i : nat => "G" +:+ pretty i) <$> seq 1 40.
Definition teacher40 : gmap string string :=
  list_to_map (((fun g => (g, "MPA")) <$> take 23 goals40)
               ++ ((fun g => (g, "MA")) <$> drop 23 goals40)).
Definition self40 : gmap string string :=
  list_to_map ((fun g => (g, "MA")) <$> goals40).

(** The counters [(total, discrepant)] with [discrepant <= total <= n] on
    which the double computation and the exact rounding agree. *)
Definition rounding_agrees_upto (n : nat) : bool :=
  forallb (fun total =>
    forallb (fun discrepant =>
      percent_of_counts total discrepant =? round_percent discrepant total)
      (seq 0 (S total)))
    (seq 0 (S n)).

(** A scheduler form asking for 100 000 000 days, and a clock reading of
    1 November 2026, 00:00 UTC. *)
Definition far_future : Scheduler.State () :=
  Scheduler.mkState true "Tests" (Scheduler.Num 100000000) (Scheduler.Num 0)
                    (Scheduler.Num 0) None ().
Definition a_clock : Z := 1793491200000.

(** A form asking for 1 day, 2 hours and 30 minutes. *)
Definition one_day_form : Scheduler.State () :=
  Scheduler.mkState true "Tests" (Scheduler.Num 1) (Scheduler.Num 2)
                    (Scheduler.Num 30) None ().

(** Students and classes. *)
Definition alice : Model.Student :=
  Model.mkStudent "Alice" "12345678901" "alice@example.com".
Definition bob : Model.Student :=
  Model.mkStudent "Bob" "98765432100" "bob@example.com".
Definition alice_enrolled : Model.Enrollment :=
  Model.mkEnrollment alice {[ "Tests" := "MA" ]} {[ "Tests" := "MPA"; "Design" := "MA" ]}.

(** A class built by the constructor from an array that holds the same
    student twice. *)
Definition twice_alice : Model.Class :=
  Model.new_Class "ESS" 1 2025 [Model.new_Enrollment alice; alice_enrolled].

(** JSON data that lists the same student twice. *)
Definition twice_alice_json : Model.ClassJSON :=
  Model.mkClassJSON "ESS-2025-1" "ESS" 1 2025
    (Some [Model.Enrollment_toJSON (Model.new_Enrollment alice);
           Model.Enrollment_toJSON alice_enrolled]).

Definition ess : Model.Class :=
  Model.new_Class "ESS" 1 2025 [alice_enrolled; Model.new_Enrollment bob].
Definition compilers : Model.Class := Model.new_Class_default "Compilers" 2 2025.

(** A heap in which the class object [ess_obj] owns the array at 1. *)
Definition ess_heap : gmap positive (list Model.Enrollment) :=
  {[ 1%positive := [alice_enrolled; Model.new_Enrollment bob] ]}.
Definition ess_obj : Heap.ClassObj := Heap.mkClassObj "ESS" 1 2025 1.
Definition some_ops : list Heap.ArrayOp :=
  [Heap.Push (Model.new_Enrollment alice); Heap.Shift; Heap.Splice 0 1 []].

End Inputs.

(** ** The rest of the evaluations component (Evaluations.tsx) *)

Module Client.
Import Model.

Definition EVALUATION_GOALS : list string :=
  ["Requirements"; "Configuration Management"; "Project Management";
   "Design"; "Tests"; "Refactoring"].

(** [a === b]: two strings are equal when they are the same string, two
    objects when they are the same object; the objects met here are the
    members of [Object.prototype], which differ in their texts. *)
Definition strict_eq (a b : JsValue) : bool :=
  match a, b with
  | VStr x, VStr y => String.eqb x y
  | VObj x, VObj y => String.eqb x y
  | VNull, VNull | VUndefined, VUndefined => true
  | _, _ => false
  end.

Definition getDiscrepancyClass (evaluation selfEvaluation : JsValue) : string :=
  if negb (truthy_value evaluation) || negb (truthy_value selfEvaluation) then ""
  else if strict_eq evaluation selfEvaluation then "match"
  else "discrepancy".

(** [list.reduce((acc, evaluation) => { acc[evaluation.goal] =
    evaluation.grade; return acc; }, {})]: the own properties of the record
    the tables look grades up in. *)
Definition evaluations_record (evaluations : list EvaluationJSON) : gmap string string :=
  foldl (fun acc evaluation => js_set acc (goal evaluation) (grade evaluation))
        ∅ evaluations.

(** The discrepancy summary of one row of the comparison table. *)
Definition row_discrepancy (enrollment : EnrollmentJSON) : Discrepancy.DiscrepancyInfo :=
  let studentEvaluations := evaluations_record (j_evaluations enrollment) in
  let studentSelfEvaluations := evaluations_record (j_selfEvaluations enrollment) in
  Discrepancy.getStudentDiscrepancyInfo EVALUATION_GOALS
    studentEvaluations studentSelfEvaluations.

(** The effect that follows [selectedClassId] and [classes]: the new value
    of [selectedClass].  The client's class objects are the JSON objects the
    server sends. *)
Definition updateSelectedClass (selectedClassId : string) (classes : list ClassJSON)
    : option ClassJSON :=
  if negb (String.eqb selectedClassId "") then
    let classObj := List.find (fun c => String.eqb (j_id c) selectedClassId) classes in
    classObj
  else None.

(** SelfEvaluation.tsx, the [onChange] of the class selector. *)
Definition selectClass (classes : list ClassJSON) (value : string) : option ClassJSON :=
  List.find (fun cls => String.eqb (j_id cls) value) classes.

(** SelfEvaluation.tsx, [loadClasses] once the data has arrived.  The
    function reads the [selectedClass] of the render that created it
    ([captured]); the state it writes is the one of the moment the data
    arrives ([current]), which an [onChange] may have changed meanwhile.
    The result is the new [classes] and [selectedClass]. *)
Definition loadClasses (data : list ClassJSON) (captured current : option ClassJSON)
    : list ClassJSON * option ClassJSON :=
  (data,
   match captured with
   | Some sel =>
       match List.find (fun c => String.eqb (j_id c) (j_id sel)) data with
       | Some updated => Some updated
       | None => current
       end
   | None => current
   end).

(** *** The click handler of the scheduling button *)

(** The double holding an integer. *)
Definition float_of_Z (z : Z) : float :=
  if z <? 0 then (- PrimFloat.of_uint63 (Uint63.of_Z (- z)))%float
  else PrimFloat.of_uint63 (Uint63.of_Z z).

(** What the handler does to the outside, in order. *)
Inductive Action :=
  | OpenModal (title message : string)
  | ScheduleOneTime (classId goal : string) (totalHours : float)
  | LoadClasses
  | OnError (errorMessage : string).

(** The state variables next to the scheduling form that the handler
    reads. *)
Record Page := mkPage {
  selectedClass : option ClassJSON
}.

(** [((Number(days) || 0) * 24) + (Number(hours) || 0)
    + ((Number(minutes) || 0) / 60)], in doubles. *)
Definition totalHours (st : Scheduler.State Page) : float :=
  (float_of_Z (Scheduler.Number_or_0 (Scheduler.days st)) * 24
   + float_of_Z (Scheduler.Number_or_0 (Scheduler.hours st))
   + float_of_Z (Scheduler.Number_or_0 (Scheduler.minutes st)) / 60)%float.

(** The text of the success dialog. *)
Definition success_message (toLocaleString : Scheduler.Date -> string)
    (selectedClass : ClassJSON) (goal : string) (scheduledDate : Scheduler.Date) : string :=
  "Pedido de autoavaliação agendado para a turma: "
  +:+ j_topic selectedClass +:+ ", meta: " +:+ goal +:+ ". Envio em: "
  +:+ toLocaleString scheduledDate.

(** The form after a successful request. *)
Definition reset_form (st : Scheduler.State Page) : Scheduler.State Page :=
  Scheduler.mkState false "" (Scheduler.Num 0) (Scheduler.Num 0) (Scheduler.Num 0)
                    None (Scheduler.others st).

Section Handler.
(** [scheduledDate.toLocaleString()] depends on the locale of the browser. *)
Variable toLocaleString : Scheduler.Date -> string.
(** The outcome of [EnrollmentService.scheduleOneTime]: it resolves, or it
    throws an error with a message. *)
Variable scheduleOneTime : string -> string -> float -> result string ().

Definition onScheduleClick (st : Scheduler.State Page)
    : list Action * Scheduler.State Page :=
  match selectedClass (Scheduler.others st) with
  | None => ([OpenModal "Selecione uma turma antes de agendar." ""], st)
  | Some selectedClass =>
      if String.eqb (Scheduler.scheduledGoal st) "" then
        ([OpenModal "Selecione uma meta." ""], st)
      else
        match Scheduler.scheduledDate st with
        | None => ([OpenModal "Informe um tempo válido para o agendamento." ""], st)
        | Some scheduledDate =>
            let totalHours := totalHours st in
            let call :=
              ScheduleOneTime (j_id selectedClass) (Scheduler.scheduledGoal st) totalHours in
            match scheduleOneTime (j_id selectedClass) (Scheduler.scheduledGoal st)
                                  totalHours with
            | Ok _ =>
                ([call;
                  OpenModal "Sucesso!"
                    (success_message toLocaleString selectedClass
                       (Scheduler.scheduledGoal st) scheduledDate);
                  LoadClasses],
                 reset_form st)
            | Err message =>
                ([call;
                  OnError (if String.eqb message "" then "Erro ao agendar" else message)],
                 st)
            end
        end
  end.
End Handler.

(** Whether a handler run sent the scheduling request. *)
Definition sent_request (actions : list Action) : bool :=
  existsb (fun a => match a with ScheduleOneTime _ _ _ => true | _ => false end) actions.

End Client.

(** ** The class routes of the server *)

Module ClassRoutes.
Import Model.

(** The body of a class request.  A field that is absent is [None]; the
    numbers are embedded as integers. *)
Record ClassBody := mkClassBody {
  b_topic : JsString;
  b_semester : option Z;
  b_year : option Z
}.

(** Truthiness of a number that may be absent: 0 is falsy. *)
Definition truthy_num (n : option Z) : bool :=
  match n with
  | Some n => negb (n =? 0)
  | None => false
  end.

Inductive ClassResponse :=
  | ClassJson (status : Z) (body : ClassJSON)
  | ClassError (status : Z) (error : string)
  | ClassNoContent.

(** [!topic || !semester || !year] *)
Definition missing_field (body : ClassBody) : bool :=
  negb (truthy (b_topic body)) || negb (truthy_num (b_semester body))
  || negb (truthy_num (b_year body)).

Definition string_of (s : JsString) : string :=
  match s with JStr s => s | _ => "" end.

Section Routes.
(** The class store (models/Classes.ts) is not among the sources; the routes
    are embedded over any store with these methods.  [addClass] may throw. *)
Variable Classes : Type.
Variable addClass : Classes -> Class -> result string Class * Classes.
Variable removeClass : Classes -> string -> bool * Classes.

(** POST /api/classes *)
Definition post_class (classes : Classes) (body : ClassBody) : ClassResponse * Classes :=
  if missing_field body then
    (ClassError 400 "Topic, semester, and year are required", classes)
  else
    let classObj :=
      new_Class_default (string_of (b_topic body)) (default 0 (b_semester body))
                        (default 0 (b_year body)) in
    match addClass classes classObj with
    | (Ok newClass, classes') => (ClassJson 201 (toJSON newClass), classes')
    | (Err message, classes') => (ClassError 400 message, classes')
    end.

(** PUT /api/classes/:id, given what [classes.findClassById(id)] returns:
    the response and the class object after the call. *)
Definition put_class (existingClass : option Class) (body : ClassBody)
    : ClassResponse * option Class :=
  if missing_field body then
    (ClassError 400 "Topic, semester, and year are required", existingClass)
  else
    match existingClass with
    | None => (ClassError 404 "Class not found", existingClass)
    | Some c =>
        let c1 := mkClass (string_of (b_topic body)) (semester c) (year c) (enrollments c) in
        let c2 := mkClass (topic c1) (default 0 (b_semester body)) (year c1) (enrollments c1) in
        let c3 := mkClass (topic c2) (semester c2) (default 0 (b_year body)) (enrollments c2) in
        (ClassJson 200 (toJSON c3), Some c3)
    end.

(** DELETE /api/classes/:id *)
Definition delete_class (classes : Classes) (id : string) : ClassResponse * Classes :=
  let '(success, classes') := removeClass classes id in
  if success then (ClassNoContent, classes')
  else (ClassError 404 "Class not found", classes').
End Routes.

End ClassRoutes.

(** ** The class methods on class objects *)

Module HeapMethods.
Import Model Heap.

(** [new Class(topic, semester, year, enrollments)]: the object keeps the
    array it is given. *)
Definition new_ClassObj (topic : string) (semester year : Z) (enrollments : positive)
    : ClassObj :=
  mkClassObj topic semester year enrollments.

(** [new Class(topic, semester, year)]: the default argument is a new empty
    array. *)
Definition new_ClassObj_default (topic : string) (semester year : Z) (h : heap)
    : ClassObj * heap :=
  let '(r, h') := alloc [] h in (mkClassObj topic semester year r, h').

Definition addEnrollment (o : ClassObj) (s : Student) (h : heap)
    : result string Enrollment * heap :=
  match findEnrollmentByStudentCPF (class_of o h) (getCPF s) with
  | Some _ => (Err "Student is already enrolled in this class", h)
  | None =>
      let enrollment := new_Enrollment s in
      (Ok enrollment, mutate (o_enrollments o) h (Push enrollment))
  end.

Definition removeEnrollment (o : ClassObj) (studentCPF : string) (h : heap) : bool * heap :=
  let index := findIndex (has_cpf studentCPF) (contents h (o_enrollments o)) in
  if index =? -1 then (false, h)
  else (true, mutate (o_enrollments o) h (Splice (Z.to_nat index) 1 [])).

End HeapMethods.

(** ** Auxiliary notions used in the statements below *)

Module Aux.
Import Discrepancy.

Fixpoint has_dash (s : string) : bool :=
  match s with
  | EmptyString => false
  | String ch rest => Ascii.eqb ch "-" || has_dash rest
  end%char.

(** The pairs of counters [discrepant <= total <= n] for which [highlight]
    is set exactly when more than a quarter of the considered goals are
    discrepant, and the percentage lies between 0 and 100. *)
Definition quarter_rule_upto (n : nat) : bool :=
  forallb (fun total =>
    forallb (fun discrepant =>
      let p := percent_of_counts total discrepant in
      Bool.eqb (25 <? p) (Z.of_nat total <? 4 * Z.of_nat discrepant)
      && (0 <=? p) && (p <=? 100))
      (seq 0 (S total)))
    (seq 0 (S n)).

(** The names a plain object inherits, and the texts of what it inherits
    under them. *)
Definition Object_prototype_names : list string :=
  "__proto__" :: "constructor" :: Object_prototype_methods.

Definition inherited_texts : list string := omap Object_prototype Object_prototype_names.

(** The comparison of strings is transitive on the inherited texts. *)
Definition texts_transitive : bool :=
  forallb (fun a =>
    forallb (fun b =>
      forallb (fun c => implb (String.ltb a b && String.ltb b c) (String.ltb a c))
              inherited_texts)
      inherited_texts)
    inherited_texts.

(** The quarter rule of [quarter_rule_upto], for every pair of counters up
    to [n], also those with more discrepant than considered goals. *)
Definition quarter_rule_all (n : nat) : bool :=
  forallb (fun total =>
    forallb (fun discrepant =>
      let p := percent_of_counts total discrepant in
      Bool.eqb (25 <? p) (Z.of_nat total <? 4 * Z.of_nat discrepant)
      && (0 <=? p) && (p <=? 100))
      (seq 0 (S total)))
    (seq 0 (S n)).

(** The grade of the last record for a goal. *)
Definition last_grade (goal' : string) (l : list Model.EvaluationJSON) : option string :=
  Model.grade <$> List.find (fun r => String.eqb (Model.goal r) goal') (reverse l).

(** The values the client code reads out of its records: strings, and the
    members of [Object.prototype], which are different objects with
    different texts. *)
Definition prototype_member (v : JsValue) : Prop :=
  match v with
  | VObj text => In text inherited_texts
  | _ => True
  end.

(** The three fields of the scheduling form hold integers small enough for
    the arithmetic of the effect and of the click handler to be exact in
    doubles: every intermediate value of
    [((d * 24 + h) * 60 + m) * 60 * 1000] is below 2^53 in absolute value. *)
Definition exact_fields {rest} (st : Scheduler.State rest) : Prop :=
  ((Z.abs (Scheduler.Number_or_0 (Scheduler.days st)) * 24
    + Z.abs (Scheduler.Number_or_0 (Scheduler.hours st))) * 60
   + Z.abs (Scheduler.Number_or_0 (Scheduler.minutes st))) * 60 * 1000 < 2 ^ 53.

(** An integer that a double holds exactly and that JavaScript prints in
    plain decimal notation. *)
Definition safe_integer (z : Z) : Prop := Z.abs z < 2 ^ 53.

End Aux.

(** ** More concrete inputs *)

Module MoreInputs.

(** The scheduling form filled in for the class ESS. *)
Definition one_day_page : Scheduler.State Client.Page :=
  Scheduler.mkState true "Tests" (Scheduler.Num 1) (Scheduler.Num 2) (Scheduler.Num 30)
    (Some (Scheduler.ValidDate 1793586600000))
    (Client.mkPage (Some (Model.toJSON Inputs.ess))).

(** The JSON of the class ESS with another id and other names and e-mail
    addresses written in the entries. *)
Definition ess_json_renamed : Model.ClassJSON :=
  Model.mkClassJSON "some-id" "ESS" 1 2025
    (Some [Model.mkEnrollmentJSON
             (Model.mkStudentJSON "A." "12345678901" "a@example.org")
             (Model.j_evaluations (Model.Enrollment_toJSON Inputs.alice_enrolled))
             (Model.j_selfEvaluations (Model.Enrollment_toJSON Inputs.alice_enrolled));
           Model.mkEnrollmentJSON
             (Model.mkStudentJSON "B." "98765432100" "b@example.org") [] []]).

(** A second class object built by the constructor from the array of
    [ess_obj], and one that owns the array at 2. *)
Definition ess_alias : Heap.ClassObj := HeapMethods.new_ClassObj "ESS (copy)" 2 2025 1.
Definition compilers_obj : Heap.ClassObj := HeapMethods.new_ClassObj "Compilers" 2 2025 2.
Definition two_heap : gmap positive (list Model.Enrollment) :=
  <[2%positive := []]> Inputs.ess_heap.

Definition carol : Model.Student :=
  Model.mkStudent "Carol" "11122233344" "carol@example.com".

End MoreInputs.

(** * Properties *)

Import Discrepancy Inputs.

(** ** List helpers *)

Lemma filter_ext_elem {A} (p q : A -> bool) (l : list A) :
  (forall x, x ∈ l -> p x = q x) -> List.filter p l = List.filter q l.
Proof.
  induction l as [|x l IH]; intros H; simpl; [done|].
  rewrite (H x) by by left. rewrite IH; [done|]. intros y Hy. apply H. by right.
Qed.

Lemma filter_filter_and {A} (p q : A -> bool) (l : list A) :
  List.filter q (List.filter p l) = List.filter (fun x => p x && q x) l.
Proof.
  induction l as [|x l IH]; simpl; [done|].
  destruct (p x); simpl; [destruct (q x)|]; by rewrite ?IH.
Qed.

(** ** compareGoal *)

Lemma hierarchy_own (k : string) : hierarchy !! k = rank <$> grade_named k.
Proof.
  unfold hierarchy, grade_named.
  repeat case_decide; subst; simplify_map_eq; done.
Qed.

(** A level name is not the name of an inherited member. *)
Lemma grade_named_plain (k : string) (g : Grade) :
  grade_named k = Some g -> Object_prototype k = None.
Proof. unfold grade_named. repeat case_decide; subst; done. Qed.

(** What [t] and [s] hold: the rank of a level name, otherwise the member
    inherited under the name, otherwise null. *)
Lemma level_cases (e : JsValue) :
  level e =
  if truthy_value e then
    match grade_named (to_key e) with
    | Some g => Some (LNum (rank g))
    | None => LObj <$> Object_prototype (to_key e)
    end
  else None.
Proof.
  unfold level, js_get. rewrite hierarchy_own.
  destruct (truthy_value e); [|done].
  destruct (grade_named (to_key e)) as [[]|]; simpl; [done..|].
  by destruct (Object_prototype (to_key e)).
Qed.

Lemma level_string (k : string) :
  level (VStr k) =
  match grade_named k with
  | Some g => Some (LNum (rank g))
  | None => LObj <$> Object_prototype k
  end.
Proof.
  rewrite level_cases. simpl.
  destruct (String.eqb_spec k "") as [->|_]; done.
Qed.

(** On two strings of which at least one is not the name of an inherited
    member, [compareGoal] is the comparison of ranks. *)
Lemma compareGoal_rank (t s : string) :
  Object_prototype t = None \/ Object_prototype s = None ->
  (compareGoal (VStr t) (VStr s) = true <->
   exists gt gs, grade_named t = Some gt /\ grade_named s = Some gs /\ rank gt < rank gs).
Proof.
  intros Hplain. unfold compareGoal. rewrite !level_string.
  destruct (grade_named t) as [gt|] eqn:Ht, (grade_named s) as [gs|] eqn:Hs; simpl.
  - rewrite Z.ltb_lt. split; [eauto 6|]. by intros (? & ? & [= <-] & [= <-] & ?).
  - split; [|by intros (? & ? & _ & ? & _)].
    by destruct (Object_prototype s).
  - split; [|by intros (? & ? & ? & _)].
    by destruct (Object_prototype t).
  - split; [|by intros (? & ? & ? & _)].
    destruct Hplain as [-> | ->]; [done|]. by destruct (Object_prototype t).
Qed.

Lemma compareGoal_falsy (v w : JsValue) :
  truthy_value v = false -> compareGoal v w = false /\ compareGoal w v = false.
Proof.
  intros Hv. unfold compareGoal. rewrite (level_cases v), Hv.
  split; [done|]. by destruct (level w).
Qed.

(** C1.  The claim fails on the code.  [hierarchy] is an object literal, so
    [hierarchy["toString"]] and [hierarchy["valueOf"]] are the inherited
    methods; both are truthy, [<] compares their texts, and [compareGoal]
    answers true for two strings that are no grades.  Apart from the names
    of inherited members the claim holds: on two strings of which at least
    one is no such name, [compareGoal] is true exactly when both are levels
    and the teacher's rank is strictly below the student's; it is false
    when a side is null, undefined or empty, false on ("MA", "MA"), and
    false whenever the teacher's rank is at least the student's. *)
Theorem compareGoal_spec :
  compareGoal (VStr "toString") (VStr "valueOf") = true /\
  grade_of (VStr "toString") = None /\ grade_of (VStr "valueOf") = None /\
  (forall t s : string,
      Object_prototype t = None \/ Object_prototype s = None ->
      (compareGoal (VStr t) (VStr s) = true <->
       exists gt gs, grade_of (VStr t) = Some gt /\ grade_of (VStr s) = Some gs
                     /\ rank gt < rank gs)) /\
  (forall v w, truthy_value v = false ->
               compareGoal v w = false /\ compareGoal w v = false) /\
  compareGoal (VStr "MA") (VStr "MA") = false /\
  (forall t s gt gs, grade_of (VStr t) = Some gt -> grade_of (VStr s) = Some gs ->
                     rank gt >= rank gs -> compareGoal (VStr t) (VStr s) = false).
Proof.
  split; [by vm_compute|]. split; [done|]. split; [done|].
  split; [apply compareGoal_rank|]. split; [apply compareGoal_falsy|].
  split; [by vm_compute|].
  intros t s gt gs Ht Hs Hge. apply not_true_is_false.
  rewrite compareGoal_rank by (left; by apply (grade_named_plain t gt)).
  intros (gt' & gs' & Ht' & Hs' & Hlt). simpl in Ht, Hs. simplify_eq. lia.
Qed.

Lemma compareGoal_spec_witness :
  compareGoal (VStr "MPA") (VStr "MA") = true /\
  compareGoal (VStr "MA") VNull = false /\
  compareGoal (VStr "MA") (VStr "MPA") = false.
Proof.
  split; [|split].
  - refine (proj2 (proj1 (proj2 (proj2 (proj2 compareGoal_spec))) "MPA" "MA" _) _).
    + left. reflexivity.
    + by exists MPA, MA.
  - refine (proj2 (proj1 (proj2 (proj2 (proj2 (proj2 compareGoal_spec))))
                     VNull (VStr "MA") _)).
    reflexivity.
  - refine (proj2 (proj2 (proj2 (proj2 (proj2 (proj2 compareGoal_spec)))))
              "MA" "MPA" MA MPA _ _ _); [reflexivity | reflexivity | simpl; lia].
Defined.

(** ** getStudentDiscrepancyInfo *)

Lemma count_goal_step (t s : gmap string string) (a b : nat) (g : string) :
  count_goal t s (a, b) g =
  if counted t s g then (S a, if flagged t s g then S b else b) else (a, b).
Proof. reflexivity. Qed.

(** The loop adds the goals it counts to [total] and those it flags among
    them to [discrepant]. *)
Lemma count_goals_from (goals : list string) (t s : gmap string string) (a b : nat) :
  foldl (count_goal t s) (a, b) goals =
  ((a + length (List.filter (counted t s) goals))%nat,
   (b + length (List.filter (flagged t s) (List.filter (counted t s) goals)))%nat).
Proof.
  revert a b.
  induction goals as [|g goals IH]; intros a b; cbn [foldl List.filter].
  - simpl. f_equal; lia.
  - rewrite count_goal_step.
    destruct (counted t s g); cbn [List.filter].
    + destruct (flagged t s g); rewrite IH; cbn [length]; f_equal; lia.
    + apply IH.
Qed.

Lemma count_goals_counted (goals : list string) (t s : gmap string string) :
  count_goals goals t s =
  (length (List.filter (counted t s) goals),
   length (List.filter (flagged t s) (List.filter (counted t s) goals))).
Proof. unfold count_goals. by rewrite count_goals_from. Qed.

(** At a goal that is not the name of an inherited member the code reads the
    recorded grade. *)
Lemma grade_at_plain (record : gmap string string) (g : string) :
  Object_prototype g = None -> grade_at record g = VStr (recorded record g).
Proof.
  intros Hg. unfold grade_at, js_get, recorded. rewrite Hg.
  by destruct (record !! g).
Qed.

Lemma count_goals_lengths (goals : list string) (t s : gmap string string) :
  (forall g, g ∈ goals -> Object_prototype g = None) ->
  count_goals goals t s =
  (length (considered goals t s), length (discrepant_goals goals t s)).
Proof.
  intros Hplain. rewrite count_goals_counted.
  assert (Hc : List.filter (counted t s) goals = considered goals t s).
  { unfold considered. apply filter_ext_elem. intros g Hg.
    unfold counted, is_considered. by rewrite !grade_at_plain by by apply Hplain. }
  rewrite Hc. unfold discrepant_goals. f_equal. f_equal.
  apply filter_ext_elem. intros g Hg. unfold flagged.
  assert (g ∈ goals) as Hin.
  { apply list_elem_of_In. apply list_elem_of_In, List.filter_In in Hg. tauto. }
  by rewrite !grade_at_plain by by apply Hplain.
Qed.

Lemma discrepant_le_considered (goals : list string) (t s : gmap string string) :
  (length (discrepant_goals goals t s) <= length (considered goals t s))%nat.
Proof. unfold discrepant_goals. apply List.filter_length_le. Qed.

Lemma rounding_agrees_39 : rounding_agrees_upto 39 = true.
Proof. vm_compute. reflexivity. Qed.

(** Up to 39 considered goals the double computation is the exact rounding. *)
Lemma percent_of_counts_exact (total discrepant : nat) :
  (discrepant <= total)%nat -> (total <= 39)%nat ->
  percent_of_counts total discrepant = round_percent discrepant total.
Proof.
  intros Hd Ht. pose proof rounding_agrees_39 as H.
  unfold rounding_agrees_upto in H. rewrite forallb_forall in H.
  specialize (H total). rewrite forallb_forall in H.
  apply Z.eqb_eq, H; apply in_seq; lia.
Qed.

(** C2, as stated in the claim, fails: with forty considered goals of which
    23 are discrepant the code computes [(23 / 40) * 100] in doubles, which
    is 57.49999999999999, and reports 57, where round(100 * 23 / 40) is 58. *)
Lemma getStudentDiscrepancyInfo_not_exact :
  count_goals goals40 teacher40 self40 = (40%nat, 23%nat) /\
  percentage (getStudentDiscrepancyInfo goals40 teacher40 self40) = 57 /\
  percentage (studentDiscrepancy_spec goals40 teacher40 self40) = 58 /\
  getStudentDiscrepancyInfo goals40 teacher40 self40
    <> studentDiscrepancy_spec goals40 teacher40 self40.
Proof.
  assert (Hc : getStudentDiscrepancyInfo goals40 teacher40 self40 = mkInfo 57 true)
    by (vm_compute; reflexivity).
  assert (Hs : studentDiscrepancy_spec goals40 teacher40 self40 = mkInfo 58 true)
    by (vm_compute; reflexivity).
  rewrite Hc, Hs. split; [vm_compute; reflexivity|].
  split; [reflexivity|]. split; [reflexivity|]. discriminate.
Qed.

(** C2 (amended).  For a goal list that holds no name of a member of
    [Object.prototype], the loop counts as considered exactly the goals with
    a non-empty grade recorded on at least one side and as discrepant the
    considered goals on which [compareGoal] holds; the percentage is 0 when
    nothing is considered, [Math.round] of the double
    [(discrepant / total) * 100] otherwise, which is
    round(100 * discrepant / considered) whenever at most 39 goals are
    considered; [highlight] is [percentage > 25].  The example of the
    specification yields 33 and true, empty inputs 0 and false. *)
Theorem getStudentDiscrepancyInfo_spec (goals : list string) (t s : gmap string string) :
  (forall g, g ∈ goals -> Object_prototype g = None) ->
  let c := length (considered goals t s) in
  let d := length (discrepant_goals goals t s) in
  count_goals goals t s = (c, d) /\
  percentage (getStudentDiscrepancyInfo goals t s) = percent_of_counts c d /\
  highlight (getStudentDiscrepancyInfo goals t s)
    = (25 <? percentage (getStudentDiscrepancyInfo goals t s)) /\
  (c = 0%nat -> getStudentDiscrepancyInfo goals t s = mkInfo 0 false) /\
  ((c <= 39)%nat ->
   getStudentDiscrepancyInfo goals t s = studentDiscrepancy_spec goals t s) /\
  getStudentDiscrepancyInfo goals6 teacher6 self6 = mkInfo 33 true /\
  getStudentDiscrepancyInfo [] ∅ ∅ = mkInfo 0 false.
Proof.
  intros Hplain c d. unfold getStudentDiscrepancyInfo.
  rewrite count_goals_lengths by done. fold c d.
  split; [done|]. split; [done|]. split; [done|]. split; [|split].
  - intros ->. reflexivity.
  - intros Hc. unfold studentDiscrepancy_spec. fold c d.
    rewrite percent_of_counts_exact; [done| |done].
    apply discrepant_le_considered.
  - split; vm_compute; reflexivity.
Qed.

Lemma goals6_plain (g : string) : g ∈ goals6 -> Object_prototype g = None.
Proof.
  intros Hg. repeat (apply elem_of_cons in Hg as [->|Hg]; [reflexivity|]).
  by apply elem_of_nil in Hg.
Qed.

Lemma getStudentDiscrepancyInfo_spec_witness :
  getStudentDiscrepancyInfo goals6 teacher6 self6
    = studentDiscrepancy_spec goals6 teacher6 self6.
Proof.
  refine (proj1 (proj2 (proj2 (proj2 (proj2
            (getStudentDiscrepancyInfo_spec goals6 teacher6 self6 goals6_plain))))) _).
  vm_compute. lia.
Defined.

(** ** The scheduler's confirmation date *)

Section SchedulerFacts.
Import Scheduler.
Context {rest : Type}.

Lemma setScheduledDate_frame (v : option Date) (st : State rest) :
  showScheduler (setScheduledDate v st) = showScheduler st /\
  scheduledGoal (setScheduledDate v st) = scheduledGoal st /\
  days (setScheduledDate v st) = days st /\
  hours (setScheduledDate v st) = hours st /\
  minutes (setScheduledDate v st) = minutes st /\
  others (setScheduledDate v st) = others st.
Proof. by destruct st. Qed.

(** The effect writes [scheduledDate] and nothing else. *)
Lemma updateScheduledDate_frame (now : Z) (st : State rest) :
  updateScheduledDate now st = setScheduledDate (scheduledDate (updateScheduledDate now st)) st.
Proof. unfold updateScheduledDate. by destruct (_ >? 0). Qed.

(** C9 (amended).  For non-negative integer days, hours and minutes, at
    least one of them positive, a clock at or after the epoch and a target
    within the range of [Date], the date set by the effect is
    now + days*24h + hours*1h + minutes*1min, that is now plus
    ((days*24 + hours)*60 + minutes)*60*1000 milliseconds, and the effect
    changes no other state variable. *)
Theorem updateScheduledDate_spec (now : Z) (st : State rest) :
  let d := Number_or_0 (days st) in
  let h := Number_or_0 (hours st) in
  let m := Number_or_0 (minutes st) in
  let target := now + d * (24 * 3600000) + h * 3600000 + m * 60000 in
  0 <= d -> 0 <= h -> 0 <= m -> 0 < d \/ 0 < h \/ 0 < m ->
  0 <= now -> target <= maxTimeValue ->
  target = now + ((d * 24 + h) * 60 + m) * 60 * 1000 /\
  updateScheduledDate now st = setScheduledDate (Some (ValidDate target)) st /\
  scheduledDate (updateScheduledDate now st) = Some (ValidDate target) /\
  showScheduler (updateScheduledDate now st) = showScheduler st /\
  scheduledGoal (updateScheduledDate now st) = scheduledGoal st /\
  days (updateScheduledDate now st) = days st /\
  hours (updateScheduledDate now st) = hours st /\
  minutes (updateScheduledDate now st) = minutes st /\
  others (updateScheduledDate now st) = others st.
Proof.
  intros d h m target Hd Hh Hm Hpos Hnow Hmax.
  assert (Ht : target = now + ((d * 24 + h) * 60 + m) * 60 * 1000)
    by (unfold target; lia).
  assert (Hupd : updateScheduledDate now st
                 = setScheduledDate (Some (ValidDate target)) st).
  { unfold updateScheduledDate, Scheduler.totalMs. fold d h m.
    destruct (Z.gtb_spec (((d * 24 + h) * 60 + m) * 60 * 1000) 0) as [Hgt|Hle];
      [|lia].
    rewrite <- Ht. unfold new_Date.
    destruct (Z.leb_spec (Z.abs target) maxTimeValue) as [_|Hbad]; [done|].
    unfold target in *. lia. }
  split; [exact Ht|]. split; [exact Hupd|]. rewrite Hupd.
  split; [by destruct st|]. apply setScheduledDate_frame.
Qed.

End SchedulerFacts.

Lemma updateScheduledDate_spec_witness :
  Scheduler.scheduledDate (Scheduler.updateScheduledDate a_clock one_day_form)
  = Some (Scheduler.ValidDate (a_clock + 95400000)).
Proof.
  refine (proj1 (proj2 (proj2
            (updateScheduledDate_spec a_clock one_day_form _ _ _ _ _ _))));
    simpl; unfold a_clock, Scheduler.maxTimeValue; lia.
Defined.

(** C9, as stated in the claim, fails: asked for 100 000 000 days, the
    effect builds a date beyond the range of [Date], which is an invalid
    date and not now + 100 000 000 days. *)
Lemma updateScheduledDate_invalid :
  Scheduler.scheduledDate (Scheduler.updateScheduledDate a_clock far_future)
    = Some Scheduler.InvalidDate /\
  Scheduler.scheduledDate (Scheduler.updateScheduledDate a_clock far_future)
    <> Some (Scheduler.ValidDate (a_clock + 100000000 * (24 * 3600000))).
Proof. split; [reflexivity | discriminate]. Qed.

(** ** Array helpers *)

Section ArrayFacts.
Context {A : Type} (p : A -> bool).

(** [findIndex] answers -1 exactly when no element satisfies the predicate;
    otherwise it answers the position of the first one that does. *)
Lemma findIndex_from_spec (xs : list A) (i : Z) :
  0 <= i ->
  (findIndex_from p xs i = -1 /\ Forall (fun x => p x = false) xs) \/
  (exists (n : nat) (x : A),
      findIndex_from p xs i = i + Z.of_nat n /\
      xs !! n = Some x /\ p x = true /\
      Forall (fun y => p y = false) (take n xs)).
Proof.
  revert i. induction xs as [|x xs IH]; intros i Hi; simpl.
  - left. by split.
  - destruct (p x) eqn:Hx.
    + right. exists 0%nat, x. repeat split; [lia | done | constructor].
    + destruct (IH (i + 1)) as [[Hm Hall] | (n & y & Hn & Hy & Hpy & Hpre)]; [lia| |].
      * left. split; [done|]. by constructor.
      * right. exists (S n), y. repeat split; [lia | done | done |].
        simpl. by constructor.
Qed.

Lemma find_None_Forall (xs : list A) :
  List.find p xs = None <-> Forall (fun x => p x = false) xs.
Proof.
  induction xs as [|x xs IH]; simpl.
  - split; [constructor | done].
  - destruct (p x) eqn:Hx.
    + split; [done|]. intros H. apply Forall_cons in H as [? _]. congruence.
    + rewrite IH. split; [by constructor | by intros [_ ?]%Forall_cons].
Qed.

End ArrayFacts.

Lemma mapM_Ok_Forall2 {E A B} (f : A -> result E B) (xs : list A) (ys : list B) :
  mapM f xs = Ok ys -> Forall2 (fun x y => f x = Ok y) xs ys.
Proof.
  revert ys. induction xs as [|x xs IH]; intros ys; simpl.
  - intros [= <-]. constructor.
  - destruct (f x) as [y|] eqn:Hy; simpl; [|done].
    destruct (mapM f xs) as [ys'|]; simpl; [|done].
    intros [= <-]. constructor; [done | by apply IH].
Qed.

(** ** The class model *)

Import Model.

Lemma has_cpf_true (k : string) (e : Enrollment) :
  has_cpf k e = true <-> getCPF (getStudent e) = k.
Proof. unfold has_cpf. apply String.eqb_eq. Qed.

Lemma has_cpf_false (k : string) (e : Enrollment) :
  has_cpf k e = false <-> getCPF (getStudent e) <> k.
Proof. unfold has_cpf. apply String.eqb_neq. Qed.

Lemma no_enrollment_with (k : string) (l : list Enrollment) :
  Forall (fun e => has_cpf k e = false) l <-> k ∉ cpfs l.
Proof.
  unfold cpfs. rewrite Forall_forall, list_elem_of_fmap. split.
  - intros H (e & -> & He). by apply H, has_cpf_false in He.
  - intros H e He. apply has_cpf_false. intros Hk. apply H. eauto.
Qed.

Lemma find_None_cpfs (c : Class) (k : string) :
  findEnrollmentByStudentCPF c k = None <-> k ∉ cpfs (enrollments c).
Proof.
  unfold findEnrollmentByStudentCPF. by rewrite find_None_Forall, no_enrollment_with.
Qed.

Lemma find_Some_cpf (c : Class) (k : string) (e : Enrollment) :
  findEnrollmentByStudentCPF c k = Some e ->
  e ∈ enrollments c /\ getCPF (getStudent e) = k.
Proof.
  unfold findEnrollmentByStudentCPF. intros [Hin Hp]%List.find_some.
  split; [by apply list_elem_of_In | by apply has_cpf_true].
Qed.

(** What [removeEnrollment] does, in terms of the array contents. *)
Lemma removeEnrollment_cases (c : Class) (k : string) :
  ((k ∉ cpfs (enrollments c)) /\ removeEnrollment c k = (false, c)) \/
  (exists l1 e l2,
      enrollments c = (l1 ++ e :: l2)%list /\ getCPF (getStudent e) = k /\
      (k ∉ cpfs l1) /\
      removeEnrollment c k = (true, mkClass (topic c) (semester c) (year c) (l1 ++ l2)%list)).
Proof.
  unfold removeEnrollment, findIndex.
  destruct (findIndex_from_spec (has_cpf k) (enrollments c) 0)
    as [[-> Hall] | (n & e & -> & Hn & He & Hpre)]; [lia| |].
  - left. by apply no_enrollment_with in Hall.
  - right. destruct (Z.eqb_spec (0 + Z.of_nat n) (-1)) as [?|_]; [lia|].
    exists (take n (enrollments c)), e, (drop (S n) (enrollments c)).
    split; [by rewrite take_drop_middle|].
    split; [by apply has_cpf_true|].
    split; [by apply no_enrollment_with|].
    unfold splice1. replace (Z.to_nat (0 + Z.of_nat n)) with n by lia.
    by rewrite delete_take_drop.
Qed.

Lemma cpfs_app (l1 l2 : list Enrollment) : cpfs (l1 ++ l2) = (cpfs l1 ++ cpfs l2)%list.
Proof. unfold cpfs. apply fmap_app. Qed.

Lemma addEnrollment_new (c : Class) (s : Student) :
  getCPF s ∉ cpfs (enrollments c) ->
  addEnrollment c s =
  (Ok (new_Enrollment s),
   mkClass (topic c) (semester c) (year c) (enrollments c ++ [new_Enrollment s])).
Proof.
  intros H%find_None_cpfs. unfold addEnrollment. by rewrite H.
Qed.

Lemma addEnrollment_duplicate (c : Class) (s : Student) :
  getCPF s ∈ cpfs (enrollments c) ->
  addEnrollment c s = (Err "Student is already enrolled in this class", c).
Proof.
  intros H. unfold addEnrollment.
  destruct (findEnrollmentByStudentCPF c (getCPF s)) eqn:Hf; [done|].
  by apply find_None_cpfs in Hf.
Qed.

Lemma addEnrollment_one_per_cpf (c : Class) (s : Student) :
  one_per_cpf c -> one_per_cpf (addEnrollment c s).2.
Proof.
  intros Hc. destruct (decide (getCPF s ∈ cpfs (enrollments c))) as [Hin|Hout].
  - by rewrite addEnrollment_duplicate.
  - rewrite addEnrollment_new by done. unfold one_per_cpf. simpl.
    rewrite cpfs_app. apply NoDup_app. split; [done|]. split.
    + intros k Hk [->|[]%elem_of_nil]%elem_of_cons. done.
    + apply NoDup_singleton.
Qed.

Lemma removeEnrollment_one_per_cpf (c : Class) (k : string) :
  one_per_cpf c -> one_per_cpf (removeEnrollment c k).2.
Proof.
  intros Hc.
  destruct (removeEnrollment_cases c k) as [[_ ->] | (l1 & e & l2 & Hl & _ & _ & ->)];
    [done|].
  unfold one_per_cpf in *. simpl. rewrite Hl in Hc.
  rewrite cpfs_app in *. unfold cpfs in Hc at 2. rewrite fmap_cons in Hc.
  apply NoDup_app in Hc as (H1 & H12 & [_ H2]%NoDup_cons).
  apply NoDup_app. split; [done|]. split; [|done].
  intros x Hx Hx2. apply (H12 x Hx). by right.
Qed.

Lemma enrollment_of_data_cpf (students : list Student) (d : EnrollmentJSON) (e : Enrollment) :
  enrollment_of_data students d = Ok e ->
  getCPF (getStudent e) = j_cpf (j_student d) /\
  evaluations e = map_of_records (j_evaluations d) /\
  selfEvaluations e = map_of_records (j_selfEvaluations d).
Proof.
  unfold enrollment_of_data.
  destruct (List.find _ students) as [s|] eqn:Hs; [|done].
  intros [= <-]. apply List.find_some in Hs as [_ Hs%String.eqb_eq]. done.
Qed.

Lemma fromJSON_cpfs (data : ClassJSON) (students : list Student) (c : Class) :
  fromJSON data students = Ok c ->
  cpfs (enrollments c) = (fun d => j_cpf (j_student d)) <$> default [] (j_enrollments data).
Proof.
  unfold fromJSON.
  destruct (j_enrollments data) as [l|]; simpl.
  - destruct (mapM _ l) as [es|] eqn:Hm; simpl; [|done].
    intros [= <-]. simpl. apply mapM_Ok_Forall2 in Hm.
    induction Hm as [|d e l es Hde _ IH]; [done|].
    unfold cpfs in *. rewrite !fmap_cons. f_equal; [|done].
    by apply enrollment_of_data_cpf in Hde as [? _].
  - by intros [= <-].
Qed.

(** C3, as stated in the claim, fails: the constructor keeps whatever array
    it is given, and [fromJSON] builds one enrollment per entry of the data,
    so both produce a class that holds the same CPF twice when their input
    does. *)
Lemma one_per_cpf_not_established :
  ~ one_per_cpf twice_alice /\
  exists c, fromJSON twice_alice_json [alice; bob] = Ok c /\ ~ one_per_cpf c.
Proof.
  assert (Hdup : ~ NoDup ["12345678901"; "12345678901"]).
  { intros [Hnotin _]%NoDup_cons. apply Hnotin. by left. }
  split; [exact Hdup|].
  eexists. split; [reflexivity|]. exact Hdup.
Qed.

(** C3 (amended).  A class constructed without an enrollment array satisfies
    the invariant; [addEnrollment] and [removeEnrollment] preserve it; the
    constructor given an array and [fromJSON] perform no check, so the class
    they produce satisfies the invariant exactly when the CPFs of the array,
    respectively of the JSON entries, are pairwise distinct. *)
Theorem one_per_cpf_maintained :
  (forall topic semester year, one_per_cpf (new_Class_default topic semester year)) /\
  (forall topic semester year l,
      one_per_cpf (new_Class topic semester year l) <-> NoDup (cpfs l)) /\
  (forall c s, one_per_cpf c -> one_per_cpf (addEnrollment c s).2) /\
  (forall c k, one_per_cpf c -> one_per_cpf (removeEnrollment c k).2) /\
  (forall data students c,
      fromJSON data students = Ok c ->
      (one_per_cpf c <->
       NoDup ((fun d => j_cpf (j_student d)) <$> default [] (j_enrollments data)))).
Proof.
  split; [intros; apply NoDup_nil_2|]. split; [done|].
  split; [apply addEnrollment_one_per_cpf|].
  split; [apply removeEnrollment_one_per_cpf|].
  intros data students c Hc. unfold one_per_cpf.
  by rewrite (fromJSON_cpfs data students c Hc).
Qed.

Lemma one_per_cpf_maintained_witness :
  one_per_cpf (addEnrollment compilers alice).2 /\
  one_per_cpf (removeEnrollment ess "12345678901").2.
Proof.
  assert (Hc : one_per_cpf compilers) by apply NoDup_nil_2.
  assert (He : one_per_cpf ess).
  { unfold one_per_cpf. simpl. apply NoDup_cons. split.
    - intros [H|[]%elem_of_nil]%elem_of_cons. discriminate H.
    - apply NoDup_singleton. }
  split.
  - exact (proj1 (proj2 (proj2 one_per_cpf_maintained)) compilers alice Hc).
  - exact (proj1 (proj2 (proj2 (proj2 one_per_cpf_maintained))) ess "12345678901" He).
Defined.

(** C4.  [addEnrollment] throws exactly when the class already holds an
    enrollment with the student's CPF, and then leaves the class as it is;
    otherwise it returns a new enrollment with both evaluation maps empty
    and appends it after the existing enrollments, which keep their order.
    Two classes that do not hold the student both accept the enrollment,
    and a class that holds the student does not stop another from
    accepting it. *)
Theorem addEnrollment_spec (c : Class) (s : Student) :
  ((exists msg, (addEnrollment c s).1 = Err msg) <-> getCPF s ∈ cpfs (enrollments c)) /\
  (getCPF s ∈ cpfs (enrollments c) ->
   addEnrollment c s = (Err "Student is already enrolled in this class", c)) /\
  (getCPF s ∉ cpfs (enrollments c) ->
   addEnrollment c s =
   (Ok (mkEnrollment s ∅ ∅),
    mkClass (topic c) (semester c) (year c) (enrollments c ++ [mkEnrollment s ∅ ∅]))) /\
  (forall c2 : Class,
      getCPF s ∉ cpfs (enrollments c2) ->
      (addEnrollment c2 s).1 = Ok (mkEnrollment s ∅ ∅) /\
      getCPF s ∈ cpfs (enrollments (addEnrollment c2 s).2) /\
      (getCPF s ∉ cpfs (enrollments c) ->
       (addEnrollment c s).1 = Ok (mkEnrollment s ∅ ∅) /\
       getCPF s ∈ cpfs (enrollments (addEnrollment c s).2))).
Proof.
  assert (Hin : forall c' : Class, getCPF s ∉ cpfs (enrollments c') ->
            (addEnrollment c' s).1 = Ok (mkEnrollment s ∅ ∅) /\
            getCPF s ∈ cpfs (enrollments (addEnrollment c' s).2)).
  { intros c' H. rewrite addEnrollment_new by done. split; [done|]. simpl.
    rewrite cpfs_app. apply elem_of_app. right. by left. }
  split; [|split; [apply addEnrollment_duplicate|split; [apply addEnrollment_new|]]].
  - split.
    + intros [msg Hmsg]. destruct (decide (getCPF s ∈ cpfs (enrollments c))); [done|].
      by rewrite addEnrollment_new in Hmsg.
    + intros H. rewrite addEnrollment_duplicate by done. eauto.
  - intros c2 H2. destruct (Hin c2 H2) as [? ?]. split; [done|]. split; [done|].
    apply Hin.
Qed.

Lemma addEnrollment_spec_witness :
  addEnrollment ess alice = (Err "Student is already enrolled in this class", ess) /\
  (addEnrollment compilers alice).1 = Ok (mkEnrollment alice ∅ ∅).
Proof.
  split.
  - refine (proj1 (proj2 (addEnrollment_spec ess alice)) _).
    simpl. by left.
  - refine (proj1 (proj2 (proj2 (proj2 (addEnrollment_spec ess alice))) compilers _)).
    simpl. apply not_elem_of_nil.
Defined.

(** ** removeEnrollment *)

(** C8, as stated in the claim, fails on a class that holds the same CPF
    twice (the constructor accepts one): the first call removes only the
    first match, so the second call finds the other one and answers true
    again. *)
Lemma removeEnrollment_twice_true :
  (removeEnrollment twice_alice "12345678901").1 = true /\
  (removeEnrollment (removeEnrollment twice_alice "12345678901").2 "12345678901").1 = true.
Proof. split; reflexivity. Qed.

(** C8 (amended).  When no enrollment has the CPF, [removeEnrollment]
    answers false and leaves the class as it is; otherwise it answers true
    and removes the first enrollment with that CPF, keeping the others in
    order.  In a class with at most one enrollment per CPF, a second call
    with the same CPF after a successful removal answers false. *)
Theorem removeEnrollment_spec (c : Class) (k : string) :
  (k ∉ cpfs (enrollments c) -> removeEnrollment c k = (false, c)) /\
  (k ∈ cpfs (enrollments c) ->
   exists l1 e l2,
     enrollments c = (l1 ++ e :: l2)%list /\ getCPF (getStudent e) = k /\
     (k ∉ cpfs l1) /\
     removeEnrollment c k
     = (true, mkClass (topic c) (semester c) (year c) (l1 ++ l2)%list)) /\
  (one_per_cpf c -> (removeEnrollment c k).1 = true ->
   removeEnrollment (removeEnrollment c k).2 k = (false, (removeEnrollment c k).2)).
Proof.
  destruct (removeEnrollment_cases c k)
    as [[Hout Hr] | (l1 & e & l2 & Hl & He & Hl1 & Hr)].
  - split; [done|]. split; [done|]. rewrite Hr. done.
  - assert (Hin : k ∈ cpfs (enrollments c)).
    { rewrite Hl, cpfs_app. apply elem_of_app. right. rewrite <- He. by left. }
    split; [done|]. split; [by eauto 10|].
    intros Hc _. rewrite Hr. simpl.
    destruct (removeEnrollment_cases (mkClass (topic c) (semester c) (year c) (l1 ++ l2)) k)
      as [[_ ->] | (l1' & e' & l2' & Hl' & He' & _ & _)]; [done|].
    exfalso. simpl in Hl'.
    unfold one_per_cpf in Hc. rewrite Hl, cpfs_app in Hc.
    unfold cpfs in Hc at 2. rewrite fmap_cons, He in Hc.
    apply NoDup_app in Hc as (_ & H12 & [Hk2 _]%NoDup_cons).
    assert (Hk : k ∈ cpfs (l1 ++ l2)).
    { rewrite Hl', cpfs_app. apply elem_of_app. right. rewrite <- He'. by left. }
    rewrite cpfs_app in Hk. apply elem_of_app in Hk as [Hk|Hk]; [done|done].
Qed.

Lemma removeEnrollment_spec_witness :
  removeEnrollment compilers "12345678901" = (false, compilers) /\
  removeEnrollment (removeEnrollment ess "12345678901").2 "12345678901"
  = (false, (removeEnrollment ess "12345678901").2).
Proof.
  split.
  - refine (proj1 (removeEnrollment_spec compilers "12345678901") _).
    simpl. apply not_elem_of_nil.
  - refine (proj2 (proj2 (removeEnrollment_spec ess "12345678901")) _ _).
    + unfold one_per_cpf. simpl. apply NoDup_cons. split.
      * intros [H|[]%elem_of_nil]%elem_of_cons. discriminate H.
      * apply NoDup_singleton.
    + reflexivity.
Defined.

(** ** recordEvaluation *)

(** C5.  For an enrolled student and any goal, a grade that is neither
    empty nor one of MANA, MPA, MA makes [recordEvaluation] fail with a
    validation error, and the class, hence the enrollment's evaluation map
    of either kind, is as before the call. *)
Theorem recordEvaluation_invalid_grade (c : Class) (studentId goal grade : string)
    (kind : EvalKind) (e : Enrollment) :
  findEnrollmentByStudentCPF c studentId = Some e ->
  grade ∉ ["MANA"; "MPA"; "MA"; ""] ->
  recordEvaluation c studentId goal grade kind
  = (Err (ValidationError "InvalidGrade"), c) /\
  kind_map kind
    <$> findEnrollmentByStudentCPF (recordEvaluation c studentId goal grade kind).2 studentId
  = Some (kind_map kind e).
Proof.
  intros He Hg.
  assert (Hr : recordEvaluation c studentId goal grade kind
               = (Err (ValidationError "InvalidGrade"), c)).
  { unfold recordEvaluation. rewrite He.
    destruct (String.eqb_spec grade "") as [->|_].
    - exfalso. apply Hg. rewrite !elem_of_cons. tauto.
    - rewrite bool_decide_eq_false_2; [done|].
      unfold valid_grades. intros Hin. apply Hg.
      rewrite !elem_of_cons in *. tauto. }
  split; [done|]. rewrite Hr. simpl. by rewrite He.
Qed.

Lemma recordEvaluation_invalid_grade_witness :
  recordEvaluation ess "12345678901" "Tests" "X" TeacherEval
  = (Err (ValidationError "InvalidGrade"), ess).
Proof.
  refine (proj1 (recordEvaluation_invalid_grade ess "12345678901" "Tests" "X"
                   TeacherEval alice_enrolled _ _)).
  - reflexivity.
  - intros H. repeat (apply elem_of_cons in H as [H|H]; [discriminate H|]).
    by apply elem_of_nil in H.
Defined.

(** ** The JSON round trip *)

Lemma foldl_insert_lookup (l : list (string * string)) (m0 : gmap string string) (k : string) :
  NoDup l.*1 ->
  foldl (fun m r => <[goal r := grade r]> m) m0
        ((fun kv => mkEvaluationJSON kv.1 kv.2) <$> l) !! k
  = match (list_to_map l : gmap string string) !! k with
    | Some v => Some v
    | None => m0 !! k
    end.
Proof.
  revert m0. induction l as [|[k1 v1] l IH]; intros m0 Hnd; simpl.
  - by rewrite lookup_empty.
  - apply NoDup_cons in Hnd as [Hk1 Hnd]. rewrite IH by done.
    destruct (decide (k = k1)) as [->|Hne].
    + rewrite (not_elem_of_list_to_map_1 _ k1) by done.
      by rewrite !lookup_insert_eq.
    + by rewrite !lookup_insert_ne.
Qed.

(** Writing a map out as records and reading the records back gives the
    map. *)
Lemma map_of_records_of_map (m : gmap string string) :
  map_of_records (records_of_map m) = m.
Proof.
  apply map_eq. intros k. unfold map_of_records, records_of_map.
  rewrite foldl_insert_lookup by apply NoDup_fst_map_to_list.
  rewrite list_to_map_to_list, lookup_empty. by destruct (m !! k).
Qed.

Lemma find_student_exists (students : list Student) (k : string) :
  (exists s, s ∈ students /\ getCPF s = k) ->
  exists s, List.find (fun s => String.eqb (getCPF s) k) students = Some s /\ getCPF s = k.
Proof.
  intros (s & Hs & Hk).
  destruct (List.find _ students) as [s'|] eqn:Hf.
  - exists s'. split; [done|]. by apply List.find_some in Hf as [_ ?%String.eqb_eq].
  - apply List.find_none with (x := s) in Hf; [|by apply list_elem_of_In].
    apply String.eqb_neq in Hf. done.
Qed.

Lemma find_student_unique (students : list Student) (s : Student) :
  s ∈ students -> NoDup (getCPF <$> students) ->
  List.find (fun s' => String.eqb (getCPF s') (getCPF s)) students = Some s.
Proof.
  induction students as [|s0 students IH]; intros Hs Hnd; [by apply elem_of_nil in Hs|].
  rewrite fmap_cons in Hnd. apply NoDup_cons in Hnd as [Hs0 Hnd]. simpl.
  destruct (String.eqb_spec (getCPF s0) (getCPF s)) as [Heq|Hne].
  - apply elem_of_cons in Hs as [->|Hs]; [done|].
    exfalso. apply Hs0. rewrite Heq. by apply list_elem_of_fmap_2.
  - apply elem_of_cons in Hs as [->|Hs]; [done|]. by apply IH.
Qed.

Lemma enrollment_round_trip (students : list Student) (e : Enrollment) :
  (exists s, s ∈ students /\ getCPF s = getCPF (getStudent e)) ->
  exists e',
    enrollment_of_data students (Enrollment_toJSON e) = Ok e' /\
    enrollment_content e' = enrollment_content e /\
    (getStudent e ∈ students -> NoDup (getCPF <$> students) -> e' = e).
Proof.
  intros Hex. unfold enrollment_of_data, getStudent in *.
  cbn [Enrollment_toJSON Student_toJSON j_student j_cpf].
  destruct (find_student_exists students _ Hex) as (s & Hf & Hs).
  rewrite Hf. eexists. split; [done|].
  unfold Enrollment_fromJSON, enrollment_content, getStudent.
  cbn [Enrollment_toJSON j_evaluations j_selfEvaluations student evaluations selfEvaluations].
  rewrite !map_of_records_of_map. split; [by rewrite Hs|].
  intros Hin Hnd. rewrite (find_student_unique students (student e)) in Hf by done.
  injection Hf as <-. by destruct e.
Qed.

Lemma enrollments_round_trip (students : list Student) (l : list Enrollment) :
  (forall e, e ∈ l -> exists s, s ∈ students /\ getCPF s = getCPF (getStudent e)) ->
  exists l',
    mapM (enrollment_of_data students) (Enrollment_toJSON <$> l) = Ok l' /\
    enrollment_content <$> l' = enrollment_content <$> l /\
    ((forall e, e ∈ l -> getStudent e ∈ students) ->
     NoDup (getCPF <$> students) -> l' = l).
Proof.
  induction l as [|e l IH]; intros Hl.
  - exists []. by repeat split.
  - destruct (enrollment_round_trip students e) as (e' & He' & Hc & Heq);
      [apply Hl; by left|].
    destruct IH as (l' & Hl' & Hcs & Heqs); [intros; apply Hl; by right|].
    exists (e' :: l'). rewrite fmap_cons. cbn [mapM]. rewrite He'. cbn [bind].
    rewrite Hl'. cbn [bind].
    split; [done|]. split; [by rewrite !fmap_cons, Hc, Hcs|].
    intros Hin Hnd. f_equal; [apply Heq; [apply Hin; by left | done]|].
    apply Heqs; [intros; apply Hin; by right | done].
Qed.

(** C7.  When the student list holds, for every enrollment of the class, a
    student with the enrollment's CPF, [fromJSON] applied to [toJSON] of the
    class succeeds and gives a class with the same topic, semester and year
    whose enrollments carry, in the same order, the same student CPF and the
    same teacher and self evaluation maps.  When the list holds the
    enrolled students themselves and no two of its students share a CPF,
    the class obtained is the original one. *)
Theorem fromJSON_toJSON (c : Class) (students : list Student) :
  (forall e, e ∈ enrollments c ->
             exists s, s ∈ students /\ getCPF s = getCPF (getStudent e)) ->
  exists c',
    fromJSON (toJSON c) students = Ok c' /\
    topic c' = topic c /\ semester c' = semester c /\ year c' = year c /\
    enrollment_content <$> enrollments c' = enrollment_content <$> enrollments c /\
    ((forall e, e ∈ enrollments c -> getStudent e ∈ students) ->
     NoDup (getCPF <$> students) -> c' = c).
Proof.
  intros Hc.
  destruct (enrollments_round_trip students (enrollments c) Hc) as (l' & Hl' & Hcs & Heq).
  exists (mkClass (topic c) (semester c) (year c) l').
  unfold fromJSON, toJSON. simpl. rewrite Hl'. simpl.
  repeat (split; [done|]).
  intros Hin Hnd. rewrite (Heq Hin Hnd). by destruct c.
Qed.

Lemma fromJSON_toJSON_witness :
  exists c',
    fromJSON (toJSON ess) [bob; alice] = Ok c' /\
    topic c' = topic ess /\ semester c' = semester ess /\ year c' = year ess /\
    enrollment_content <$> enrollments c' = enrollment_content <$> enrollments ess /\
    ((forall e, e ∈ enrollments ess -> getStudent e ∈ [bob; alice]) ->
     NoDup (getCPF <$> [bob; alice]) -> c' = ess).
Proof.
  apply (fromJSON_toJSON ess [bob; alice]).
  intros e He. simpl in He.
  apply elem_of_cons in He as [->|He].
  - exists alice. split; [|reflexivity]. right. by left.
  - apply elem_of_cons in He as [->|He].
    + exists bob. split; [|reflexivity]. by left.
    + by apply elem_of_nil in He.
Defined.

(** ** CPF normalisation *)

Import Server.

Lemma cleanCPF_no_punctuation (k : string) : has_punctuation (cleanCPF k) = false.
Proof.
  induction k as [|ch k IH]; [done|]. simpl.
  destruct (Ascii.eqb ch "." || Ascii.eqb ch "-") eqn:Hch; [done|].
  simpl. by rewrite Hch.
Qed.

Lemma cleanCPF_id (k : string) : has_punctuation k = false <-> cleanCPF k = k.
Proof.
  split.
  - induction k as [|ch k IH]; [done|]. simpl.
    destruct (Ascii.eqb ch "." || Ascii.eqb ch "-"); [done|].
    simpl. intros H. by rewrite IH.
  - intros <-. apply cleanCPF_no_punctuation.
Qed.

Lemma cleanCPF_idempotent (k : string) : cleanCPF (cleanCPF k) = cleanCPF k.
Proof. apply cleanCPF_id, cleanCPF_no_punctuation. Qed.

Lemma cleanCPF_app (a b : string) : cleanCPF (a +:+ b) = cleanCPF a +:+ cleanCPF b.
Proof.
  induction a as [|ch a IH]; [done|].
  change (String ch a +:+ b) with (String ch (a +:+ b)). simpl.
  destruct (Ascii.eqb ch "." || Ascii.eqb ch "-"); [done|].
  change (String ch (cleanCPF a) +:+ cleanCPF b)
    with (String ch (cleanCPF a +:+ cleanCPF b)).
  by rewrite IH.
Qed.

(** C6, as stated in the claim, fails: the class compares the CPF it is given
    with the stored one as it is, so the formatted CPF of an enrolled
    student finds no enrollment and removes none, while its stripped form
    finds and removes the student's enrollment. *)
Lemma enrollment_lookup_not_normalised :
  cleanCPF "123.456.789-01" = "12345678901" /\
  findEnrollmentByStudentCPF ess "123.456.789-01" = None /\
  findEnrollmentByStudentCPF ess (cleanCPF "123.456.789-01") = Some alice_enrolled /\
  (removeEnrollment ess "123.456.789-01").1 = false /\
  (removeEnrollment ess (cleanCPF "123.456.789-01")).1 = true.
Proof. repeat split. Qed.

Section CPFFacts.
Variable StudentSet : Type.
Variable findStudentByCPF : StudentSet -> string -> option Student.
Variable removeStudent : StudentSet -> string -> bool * StudentSet.

(** C6 (amended).  [cleanCPF] removes every '.' and '-', keeps every other
    character in place, works piece by piece, and leaves a stripped CPF as
    it is.  The GET and DELETE student routes apply it
    before they consult the store, so they treat a formatted CPF and its
    stripped form alike.  The class methods [findEnrollmentByStudentCPF]
    and [removeEnrollment] compare by string equality without normalising:
    an enrollment they find has exactly the CPF asked for, and in a class
    whose stored CPFs are stripped a CPF with punctuation finds and removes
    nothing. *)
Theorem cpf_normalisation :
  (forall k, has_punctuation (cleanCPF k) = false /\ cleanCPF (cleanCPF k) = cleanCPF k) /\
  (forall k, has_punctuation k = false -> cleanCPF k = k) /\
  (cleanCPF "" = "" /\
   forall ch k, cleanCPF (String ch k)
                = if (Ascii.eqb ch "." || Ascii.eqb ch "-")%char then cleanCPF k
                  else String ch (cleanCPF k)) /\
  (forall a b, cleanCPF (a +:+ b) = cleanCPF a +:+ cleanCPF b) /\
  (forall set k,
      get_student StudentSet findStudentByCPF set k
      = get_student StudentSet findStudentByCPF set (cleanCPF k)) /\
  (forall set k,
      delete_student StudentSet removeStudent set k
      = delete_student StudentSet removeStudent set (cleanCPF k)) /\
  (forall c k e, findEnrollmentByStudentCPF c k = Some e -> getCPF (getStudent e) = k) /\
  (forall c k,
      (forall e, e ∈ enrollments c -> has_punctuation (getCPF (getStudent e)) = false) ->
      has_punctuation k = true ->
      findEnrollmentByStudentCPF c k = None /\ removeEnrollment c k = (false, c)).
Proof.
  split; [intros k; split; [apply cleanCPF_no_punctuation | apply cleanCPF_idempotent]|].
  split; [intros k; apply cleanCPF_id|].
  split; [split; [done|]; intros ch k; simpl; by destruct (_ || _)|].
  split; [apply cleanCPF_app|].
  split; [intros set k; unfold get_student; by rewrite cleanCPF_idempotent|].
  split; [intros set k; unfold delete_student; by rewrite cleanCPF_idempotent|].
  split; [intros c k e H; by apply find_Some_cpf in H as [_ ?]|].
  intros c k Hc Hk.
  assert (Hout : k ∉ cpfs (enrollments c)).
  { unfold cpfs. intros (e & -> & He)%list_elem_of_fmap.
    rewrite (Hc e He) in Hk. discriminate Hk. }
  split; [by apply find_None_cpfs|].
  by destruct (removeEnrollment_cases c k) as [[_ ?] | (l1 & e & l2 & Hl & He & _ & _)];
    [|exfalso; apply Hout; rewrite Hl, cpfs_app, elem_of_app; right; rewrite <- He; left].
Qed.

End CPFFacts.

Lemma cpf_normalisation_witness :
  cleanCPF "12345678901" = "12345678901" /\
  findEnrollmentByStudentCPF ess "123.456.789-01" = None /\
  removeEnrollment ess "123.456.789-01" = (false, ess).
Proof.
  split.
  - refine (proj1 (proj2
              (cpf_normalisation (list Student)
                 (fun set k => List.find (fun s => String.eqb (getCPF s) k) set)
                 (fun set k => (false, set)))) "12345678901" _).
    reflexivity.
  - refine (proj2 (proj2 (proj2 (proj2 (proj2 (proj2 (proj2
              (cpf_normalisation (list Student)
                 (fun set k => List.find (fun s => String.eqb (getCPF s) k) set)
                 (fun set k => (false, set)))))))))
              ess "123.456.789-01" _ _).
    + intros e He. simpl in He.
      apply elem_of_cons in He as [->|He]; [reflexivity|].
      apply elem_of_cons in He as [->|He]; [reflexivity|].
      by apply elem_of_nil in He.
    + reflexivity.
Defined.

(** ** The copy returned by getEnrollments *)

Import Heap.

Lemma mutate_all_other (r r' : positive) (ops : list ArrayOp) (h : heap) :
  r' <> r -> mutate_all r ops h !! r' = h !! r'.
Proof.
  intros Hne. unfold mutate_all. revert h.
  induction ops as [|op ops IH]; intros h; simpl; [done|].
  rewrite IH. unfold mutate. by rewrite lookup_insert_ne.
Qed.

Lemma mutate_all_same (r : positive) (ops : list ArrayOp) (h : heap) :
  contents (mutate_all r ops h) r = foldl (fun l op => apply_op op l) (contents h r) ops.
Proof.
  unfold mutate_all. revert h.
  induction ops as [|op ops IH]; intros h; simpl; [done|].
  rewrite IH. f_equal. unfold mutate, contents. by rewrite lookup_insert_eq.
Qed.

Lemma getEnrollments_fresh (o : ClassObj) (h : heap) :
  is_Some (h !! o_enrollments o) -> (Heap.getEnrollments o h).1 <> o_enrollments o.
Proof.
  intros Hsome Heq. simpl in Heq.
  apply elem_of_dom in Hsome. rewrite <- Heq in Hsome.
  by apply is_fresh in Hsome.
Qed.

(** C10.  [getEnrollments] returns a new array holding the elements of the
    class's own array.  Whatever sequence of pushes, pops, shifts, unshifts,
    splices and truncations the caller applies to the returned array, the
    class's own array keeps its contents, so a later [getEnrollments],
    [findEnrollmentByStudentCPF] or [toJSON] observes what it would have
    observed before. *)
Theorem getEnrollments_copy (o : ClassObj) (h : heap) (ops : list ArrayOp) :
  is_Some (h !! o_enrollments o) ->
  let r := (Heap.getEnrollments o h).1 in
  let h1 := (Heap.getEnrollments o h).2 in
  let h2 := mutate_all r ops h1 in
  r <> o_enrollments o /\
  contents h1 r = contents h (o_enrollments o) /\
  contents h2 r = foldl (fun l op => apply_op op l) (contents h (o_enrollments o)) ops /\
  contents h2 (o_enrollments o) = contents h (o_enrollments o) /\
  class_of o h2 = class_of o h /\
  contents (Heap.getEnrollments o h2).2 (Heap.getEnrollments o h2).1
    = contents h (o_enrollments o) /\
  (forall k, findEnrollmentByStudentCPF (class_of o h2) k
             = findEnrollmentByStudentCPF (class_of o h) k) /\
  toJSON (class_of o h2) = toJSON (class_of o h).
Proof.
  intros Hsome r h1 h2.
  assert (Hr : r <> o_enrollments o) by by apply getEnrollments_fresh.
  assert (Hown : contents h2 (o_enrollments o) = contents h (o_enrollments o)).
  { unfold contents, h2. rewrite mutate_all_other by done.
    unfold h1. simpl. by rewrite lookup_insert_ne. }
  assert (Hclass : class_of o h2 = class_of o h) by (unfold class_of; by rewrite Hown).
  split; [done|]. split; [unfold contents, h1; simpl; by rewrite lookup_insert_eq|].
  split.
  { unfold h2. rewrite mutate_all_same. f_equal.
    unfold contents, h1. simpl. by rewrite lookup_insert_eq. }
  split; [done|]. split; [done|].
  split; [|by rewrite Hclass].
  unfold contents at 1. simpl. rewrite lookup_insert_eq. simpl. exact Hown.
Qed.

Lemma getEnrollments_copy_witness :
  class_of ess_obj (mutate_all (Heap.getEnrollments ess_obj ess_heap).1 some_ops
                               (Heap.getEnrollments ess_obj ess_heap).2)
  = class_of ess_obj ess_heap.
Proof.
  refine (proj1 (proj2 (proj2 (proj2 (proj2
            (getEnrollments_copy ess_obj ess_heap some_ops _)))))).
  exists [alice_enrolled; new_Enrollment bob]. reflexivity.
Defined.

(** * Further properties of the code *)

(** ** The discrepancy engine *)

Import Client Aux MoreInputs.

Lemma rank_injective (g1 g2 : Grade) : rank g1 = rank g2 -> g1 = g2.
Proof. by destruct g1, g2. Qed.

Lemma inherited_text_listed (k text : string) :
  Object_prototype k = Some text -> In text inherited_texts.
Proof.
  unfold Object_prototype. intros H.
  case_decide; [injection H as <-; vm_compute; tauto|].
  case_decide; [injection H as <-; vm_compute; tauto|].
  case_bool_decide as Hk; [|done]. injection H as <-.
  unfold Object_prototype_methods in Hk.
  repeat (apply elem_of_cons in Hk as [->|Hk]; [vm_compute; tauto|]).
  by apply elem_of_nil in Hk.
Qed.

(** What [level] can yield: the rank of a grade, or the text of an
    inherited member. *)
Lemma level_range (e : JsValue) (l : Level) :
  level e = Some l ->
  truthy_value e = true /\
  ((exists g, l = LNum (rank g)) \/ (exists text, l = LObj text /\ In text inherited_texts)).
Proof.
  rewrite level_cases. destruct (truthy_value e); [|done].
  destruct (grade_named (to_key e)) as [g|].
  - intros [= <-]. split; [done|]. left. by exists g.
  - destruct (Object_prototype (to_key e)) as [text|] eqn:Hp; [|done].
    intros [= <-]. split; [done|]. right. exists text. split; [done|].
    by apply (inherited_text_listed (to_key e)).
Qed.

Lemma string_compare_refl (a : string) : String.compare a a = Eq.
Proof.
  induction a as [|ch a IH]; [done|]. simpl.
  unfold Ascii.compare. by rewrite N.compare_refl.
Qed.

Lemma string_ltb_irrefl (a : string) : String.ltb a a = false.
Proof. unfold String.ltb. by rewrite string_compare_refl. Qed.

Lemma string_ltb_asym (a b : string) : String.ltb a b = true -> String.ltb b a = false.
Proof.
  unfold String.ltb. rewrite (String.compare_antisym a b).
  by destruct (String.compare b a).
Qed.

Lemma texts_transitive_ok : texts_transitive = true.
Proof. vm_compute. reflexivity. Qed.

Lemma string_ltb_trans_texts (a b c : string) :
  In a inherited_texts -> In b inherited_texts -> In c inherited_texts ->
  String.ltb a b = true -> String.ltb b c = true -> String.ltb a c = true.
Proof.
  intros Ha Hb Hc Hab Hbc. pose proof texts_transitive_ok as H.
  unfold texts_transitive in H. rewrite forallb_forall in H.
  specialize (H a Ha). rewrite forallb_forall in H.
  specialize (H b Hb). rewrite forallb_forall in H.
  specialize (H c Hc). by rewrite Hab, Hbc in H.
Qed.

Lemma less_than_irrefl (l : Level) : less_than l l = false.
Proof. destruct l; simpl; [apply Z.ltb_irrefl | apply string_ltb_irrefl]. Qed.

Lemma compareGoal_irrefl (a : JsValue) : compareGoal a a = false.
Proof. unfold compareGoal. destruct (level a); [apply less_than_irrefl | done]. Qed.

Lemma compareGoal_truthy (t s : JsValue) :
  compareGoal t s = true -> truthy_value t = true /\ truthy_value s = true.
Proof.
  unfold compareGoal.
  destruct (level t) as [lt|] eqn:Ht; [|done].
  destruct (level s) as [ls|] eqn:Hs; [|done].
  intros _. apply level_range in Ht as [? _], Hs as [? _]. done.
Qed.

(** X1.  [compareGoal] is a strict order on its arguments, the names of
    inherited members included: irreflexive, asymmetric and transitive; two
    different valid grades are always related one way or the other. *)
Theorem compareGoal_strict_order (a b c : JsValue) :
  compareGoal a a = false /\
  (compareGoal a b = true -> compareGoal b a = false) /\
  (compareGoal a b = true -> compareGoal b c = true -> compareGoal a c = true) /\
  (forall ga gb, grade_of a = Some ga -> grade_of b = Some gb -> ga <> gb ->
                 compareGoal a b = true \/ compareGoal b a = true).
Proof.
  split; [apply compareGoal_irrefl|]. split; [|split].
  - unfold compareGoal.
    destruct (level a) as [[x|x]|], (level b) as [[y|y]|]; simpl; try done.
    + intros ?%Z.ltb_lt. apply Z.ltb_ge. lia.
    + apply string_ltb_asym.
  - unfold compareGoal.
    destruct (level a) as [[x|x]|] eqn:Ha; [| |done];
      destruct (level b) as [[y|y]|] eqn:Hb; try done;
      destruct (level c) as [[z|z]|] eqn:Hc; try done; simpl.
    + intros ?%Z.ltb_lt ?%Z.ltb_lt. apply Z.ltb_lt. lia.
    + apply level_range in Ha as [_ [[? [=]]|(? & [= <-] & Hx)]].
      apply level_range in Hb as [_ [[? [=]]|(? & [= <-] & Hy)]].
      apply level_range in Hc as [_ [[? [=]]|(? & [= <-] & Hz)]].
      by apply string_ltb_trans_texts.
  - intros ga gb Ha Hb Hne.
    destruct a as [| |ka|]; try done. destruct b as [| |kb|]; try done.
    simpl in Ha, Hb.
    rewrite !compareGoal_rank
      by (left; first [by apply (grade_named_plain ka ga)
                      | by apply (grade_named_plain kb gb)]).
    destruct (Z.lt_total (rank ga) (rank gb)) as [?|[Heq|?]]; [eauto 10| |eauto 10].
    by apply rank_injective in Heq.
Qed.

Lemma compareGoal_strict_order_witness :
  compareGoal (VStr "valueOf") (VStr "toString") = false /\
  compareGoal (VStr "MANA") (VStr "MA") = true.
Proof.
  split.
  - refine (proj1 (proj2 (compareGoal_strict_order
                            (VStr "toString") (VStr "valueOf") VNull)) _).
    reflexivity.
  - refine (proj1 (proj2 (proj2 (compareGoal_strict_order
                                   (VStr "MANA") (VStr "MPA") (VStr "MA")))) _ _);
      reflexivity.
Defined.

Lemma strict_eq_true (a b : JsValue) : strict_eq a b = true <-> a = b.
Proof.
  destruct a as [| |x|x], b as [| |y|y]; simpl;
    try (split; [done|discriminate]); try done;
    rewrite String.eqb_eq; (split; [by intros ->|by intros [= ->]]).
Qed.

Lemma strict_eq_sym (a b : JsValue) : strict_eq a b = strict_eq b a.
Proof.
  destruct a as [| |x|x], b as [| |y|y]; simpl; try done; apply String.eqb_sym.
Qed.

(** X2.  On the values the records yield: whenever [compareGoal] flags a
    pair, [getDiscrepancyClass] marks it as a discrepancy.
    [getDiscrepancyClass] does not look at the direction: it gives the same
    class when its arguments are swapped, "match" exactly for two equal
    truthy values, and no class when a side is falsy. *)
Theorem getDiscrepancyClass_compareGoal (t s : JsValue) :
  prototype_member t -> prototype_member s ->
  (compareGoal t s = true -> getDiscrepancyClass t s = "discrepancy") /\
  getDiscrepancyClass t s = getDiscrepancyClass s t /\
  (getDiscrepancyClass t s = "match" <-> truthy_value t = true /\ t = s) /\
  (getDiscrepancyClass t s = "" <-> truthy_value t = false \/ truthy_value s = false).
Proof.
  intros _ _. unfold getDiscrepancyClass. split; [|split; [|split]].
  - intros Hc. destruct (compareGoal_truthy t s Hc) as [-> ->]. simpl.
    destruct (strict_eq t s) eqn:Heq; [|done].
    apply strict_eq_true in Heq. subst s. by rewrite compareGoal_irrefl in Hc.
  - rewrite (strict_eq_sym t s).
    by destruct (truthy_value t), (truthy_value s), (strict_eq s t).
  - destruct (truthy_value t) eqn:Ht, (truthy_value s) eqn:Hs; simpl.
    + destruct (strict_eq t s) eqn:Heq.
      * apply strict_eq_true in Heq. by split.
      * split; [done|]. intros [_ ?%strict_eq_true]. congruence.
    + split; [done|]. intros [_ <-]. congruence.
    + split; [done|]. by intros [? _].
    + split; [done|]. by intros [? _].
  - destruct (truthy_value t), (truthy_value s); simpl;
      try (split; [by auto | done]).
    destruct (strict_eq t s); (split; [done | by intros [?|?]]).
Qed.

Lemma getDiscrepancyClass_compareGoal_witness :
  getDiscrepancyClass (VStr "MPA") (VStr "MA") = "discrepancy" /\
  getDiscrepancyClass (VStr "toString") (VStr "valueOf") = "discrepancy".
Proof.
  split.
  - refine (proj1 (getDiscrepancyClass_compareGoal (VStr "MPA") (VStr "MA") _ _) _);
      [exact I | exact I | reflexivity].
  - refine (proj1 (getDiscrepancyClass_compareGoal
                     (VStr "toString") (VStr "valueOf") _ _) _);
      [exact I | exact I | reflexivity].
Defined.

Lemma filter_length_Permutation {A} (p : A -> bool) (l l' : list A) :
  l ≡ₚ l' -> length (List.filter p l) = length (List.filter p l').
Proof.
  induction 1 as [|x l l' _ IH|x y l|l l' l'' _ IH1 _ IH2]; simpl.
  - done.
  - destruct (p x); simpl; by rewrite IH.
  - by destruct (p x), (p y).
  - by rewrite IH1.
Qed.

Lemma info_of_counts (goals : list string) (t s : gmap string string) :
  getStudentDiscrepancyInfo goals t s =
  let p := percent_of_counts (count_goals goals t s).1 (count_goals goals t s).2 in
  mkInfo p (25 <? p).
Proof. unfold getStudentDiscrepancyInfo. by destruct (count_goals goals t s). Qed.

Lemma count_goals_agree (goals : list string) (t t' s s' : gmap string string) :
  (forall g, g ∈ goals -> grade_at t g = grade_at t' g /\ grade_at s g = grade_at s' g) ->
  List.filter (counted t s) goals = List.filter (counted t' s') goals /\
  List.filter (flagged t s) (List.filter (counted t s) goals)
  = List.filter (flagged t' s') (List.filter (counted t' s') goals).
Proof.
  intros Hagree.
  assert (Hc : List.filter (counted t s) goals = List.filter (counted t' s') goals).
  { apply filter_ext_elem. intros g Hg. unfold counted.
    by destruct (Hagree g Hg) as [-> ->]. }
  split; [done|]. rewrite Hc. apply filter_ext_elem. intros g Hg. unfold flagged.
  assert (g ∈ goals) as Hin.
  { apply list_elem_of_In. apply list_elem_of_In, List.filter_In in Hg. tauto. }
  by destruct (Hagree g Hin) as [-> ->].
Qed.

Lemma getStudentDiscrepancyInfo_agree (goals : list string) (t t' s s' : gmap string string) :
  (forall g, g ∈ goals -> grade_at t g = grade_at t' g /\ grade_at s g = grade_at s' g) ->
  getStudentDiscrepancyInfo goals t s = getStudentDiscrepancyInfo goals t' s'.
Proof.
  intros Hagree. rewrite !info_of_counts, !count_goals_counted.
  by destruct (count_goals_agree goals t t' s s' Hagree) as [-> ->].
Qed.

(** X3.  The summary depends only on which goals are listed, not on their
    order, and only on what the two records yield at the listed goals. *)
Theorem getStudentDiscrepancyInfo_local (goals goals' : list string)
    (t t' s s' : gmap string string) :
  goals ≡ₚ goals' ->
  (forall g, g ∈ goals -> grade_at t g = grade_at t' g /\ grade_at s g = grade_at s' g) ->
  getStudentDiscrepancyInfo goals t s = getStudentDiscrepancyInfo goals' t' s'.
Proof.
  intros Hperm Hagree.
  rewrite (getStudentDiscrepancyInfo_agree goals t t' s s' Hagree).
  rewrite !info_of_counts, !count_goals_counted. cbn [fst snd].
  rewrite !filter_filter_and.
  by rewrite !(filter_length_Permutation _ goals goals' Hperm).
Qed.

Lemma getStudentDiscrepancyInfo_local_witness :
  getStudentDiscrepancyInfo ["G2"; "G1"] teacher6 self6
  = getStudentDiscrepancyInfo ["G1"; "G2"] teacher6 (delete "G3" self6).
Proof.
  apply getStudentDiscrepancyInfo_local.
  - apply Permutation_swap.
  - intros g Hg. split; [reflexivity|].
    apply elem_of_cons in Hg as [->|Hg]; [reflexivity|].
    apply elem_of_cons in Hg as [->|Hg]; [reflexivity|].
    by apply elem_of_nil in Hg.
Defined.

Lemma count_goals_le (goals : list string) (t s : gmap string string) :
  ((count_goals goals t s).2 <= (count_goals goals t s).1)%nat.
Proof. rewrite count_goals_counted. apply List.filter_length_le. Qed.

Lemma quarter_rule_39 : quarter_rule_upto 39 = true.
Proof. vm_compute. reflexivity. Qed.

(** X4.  When the loop counts at most 39 goals, the percentage lies between
    0 and 100 and [highlight] is set exactly when more than a quarter of
    the counted goals are counted as discrepant. *)
Theorem highlight_quarter_rule (goals : list string) (t s : gmap string string) :
  let c := (count_goals goals t s).1 in
  let d := (count_goals goals t s).2 in
  (c <= 39)%nat ->
  highlight (getStudentDiscrepancyInfo goals t s) = (Z.of_nat c <? 4 * Z.of_nat d) /\
  0 <= percentage (getStudentDiscrepancyInfo goals t s) <= 100.
Proof.
  intros c d Hc. rewrite info_of_counts. fold c d. simpl.
  pose proof quarter_rule_39 as H. unfold quarter_rule_upto in H.
  rewrite forallb_forall in H. specialize (H c). rewrite forallb_forall in H.
  assert (Hd : (d <= c)%nat) by apply count_goals_le.
  specialize (H ltac:(apply in_seq; lia) d ltac:(apply in_seq; lia)).
  simpl in H. apply andb_true_iff in H as [[H1 H2]%andb_true_iff H3].
  apply Bool.eqb_prop in H1. split; [done|]. lia.
Qed.

Lemma highlight_quarter_rule_witness :
  highlight (getStudentDiscrepancyInfo goals6 teacher6 self6) = true.
Proof.
  refine (proj1 (highlight_quarter_rule goals6 teacher6 self6 _)).
  vm_compute. lia.
Defined.

Lemma filter_none {A} (l : list A) : List.filter (fun _ => false) l = [].
Proof. by induction l. Qed.

(** Zero divided by any double and multiplied by 100 rounds to 0. *)
Lemma round_zero_quotient (x : float) :
  Math_round ((float_of_nat 0 / x) * 100)%float = 0.
Proof.
  unfold Math_round. rewrite mul_spec, div_spec.
  change (Prim2SF (float_of_nat 0)) with (S754_zero false).
  change (Prim2SF 100%float) with (S754_finite false 7036874417766400 (-46)).
  by destruct (Prim2SF x) as [[]|[]| |[] m e].
Qed.

Lemma percent_of_counts_none (total : nat) : percent_of_counts total 0 = 0.
Proof.
  unfold percent_of_counts. destruct (total =? 0)%nat; [done|].
  apply round_zero_quotient.
Qed.

(** X5.  When [compareGoal] holds at none of the listed goals for what the
    two records yield there, whatever the number of goals, the percentage
    is 0 and the student is not highlighted. *)
Theorem no_overstatement_no_highlight (goals : list string) (t s : gmap string string) :
  (forall g, g ∈ goals -> compareGoal (grade_at t g) (grade_at s g) = false) ->
  getStudentDiscrepancyInfo goals t s = mkInfo 0 false.
Proof.
  intros Hnone. rewrite info_of_counts, count_goals_counted. cbn [fst snd].
  rewrite filter_filter_and.
  rewrite (filter_ext_elem (fun g => counted t s g && flagged t s g) (fun _ => false)),
    filter_none.
  - cbn [length]. cbv zeta. by rewrite percent_of_counts_none.
  - intros g Hg. unfold flagged. rewrite (Hnone g Hg). apply andb_false_r.
Qed.

Lemma no_overstatement_no_highlight_witness :
  getStudentDiscrepancyInfo goals6 self6 teacher6 = mkInfo 0 false.
Proof.
  apply no_overstatement_no_highlight.
  intros g Hg.
  repeat (apply elem_of_cons in Hg as [->|Hg]; [reflexivity|]).
  by apply elem_of_nil in Hg.
Defined.

(** ** The records built from the evaluation lists *)

Lemma evaluations_record_snoc (l : list Model.EvaluationJSON) (r : Model.EvaluationJSON) :
  evaluations_record (l ++ [r])
  = js_set (evaluations_record l) (Model.goal r) (Model.grade r).
Proof. unfold evaluations_record. by rewrite foldl_snoc. Qed.

Lemma evaluations_record_proto (l : list Model.EvaluationJSON) :
  evaluations_record l !! "__proto__" = None.
Proof.
  induction l as [|r l IH] using rev_ind; [done|].
  rewrite evaluations_record_snoc. unfold js_set.
  destruct (String.eqb_spec (Model.goal r) "__proto__") as [?|Hne]; [done|].
  by rewrite lookup_insert_ne.
Qed.

Lemma evaluations_record_lookup (l : list Model.EvaluationJSON) (g : string) :
  g <> "__proto__" -> evaluations_record l !! g = last_grade g l.
Proof.
  intros Hg. unfold last_grade. induction l as [|r l IH] using rev_ind; [done|].
  rewrite evaluations_record_snoc, reverse_snoc. simpl. unfold js_set.
  destruct (String.eqb_spec (Model.goal r) "__proto__") as [Hp|Hp].
  - destruct (String.eqb_spec (Model.goal r) g) as [?|_]; [congruence|done].
  - destruct (String.eqb_spec (Model.goal r) g) as [->|Hne].
    + by rewrite lookup_insert_eq.
    + by rewrite lookup_insert_ne.
Qed.

Lemma last_grade_None (l : list Model.EvaluationJSON) (g : string) :
  g ∉ Model.goal <$> l -> last_grade g l = None.
Proof.
  intros Hg. unfold last_grade.
  destruct (List.find _ (reverse l)) as [r|] eqn:Hf; [|done].
  apply List.find_some in Hf as [Hin Heq%String.eqb_eq].
  exfalso. apply Hg. apply list_elem_of_fmap. exists r. split; [done|].
  apply list_elem_of_In in Hin. by rewrite elem_of_reverse in Hin.
Qed.

(** X6.  The record built from a list of evaluations holds, for each goal
    other than [__proto__], the grade of the last evaluation listed for
    that goal, and nothing for a goal that no evaluation names; an
    evaluation for the goal [__proto__] is dropped.  What the tables read
    at a goal is that grade, and the empty string at a goal that no
    evaluation names and that is not the name of an inherited member.
    Appending an evaluation overrides the earlier ones for its goal and
    leaves the other goals as they were. *)
Theorem evaluations_record_last (l : list Model.EvaluationJSON) (g : string) :
  (g <> "__proto__" -> evaluations_record l !! g = last_grade g l) /\
  evaluations_record l !! "__proto__" = None /\
  (forall v, g <> "__proto__" -> last_grade g l = Some v ->
             grade_at (evaluations_record l) g = VStr v) /\
  (g ∉ Model.goal <$> l ->
   evaluations_record l !! g = None /\
   (Object_prototype g = None -> grade_at (evaluations_record l) g = VStr "")) /\
  (forall r, Model.goal r <> "__proto__" ->
             evaluations_record (l ++ [r]) !! Model.goal r = Some (Model.grade r)) /\
  (forall r, Model.goal r <> g ->
             evaluations_record (l ++ [r]) !! g = evaluations_record l !! g) /\
  (forall r, Model.goal r = "__proto__" ->
             evaluations_record (l ++ [r]) = evaluations_record l).
Proof.
  split; [apply evaluations_record_lookup|].
  split; [apply evaluations_record_proto|]. split; [|split; [|split; [|split]]].
  - intros v Hg Hv. unfold grade_at, js_get.
    by rewrite evaluations_record_lookup, Hv.
  - intros Hg.
    assert (Hn : evaluations_record l !! g = None).
    { destruct (decide (g = "__proto__")) as [->|Hne];
        [apply evaluations_record_proto|].
      rewrite evaluations_record_lookup by done. by apply last_grade_None. }
    split; [done|]. intros Hp. unfold grade_at, js_get. by rewrite Hn, Hp.
  - intros r Hr. rewrite evaluations_record_snoc. unfold js_set.
    destruct (String.eqb_spec (Model.goal r) "__proto__") as [?|_]; [done|].
    by rewrite lookup_insert_eq.
  - intros r Hne. rewrite evaluations_record_snoc. unfold js_set.
    destruct (String.eqb (Model.goal r) "__proto__"); [done|].
    by rewrite lookup_insert_ne.
  - intros r Hr. rewrite evaluations_record_snoc. unfold js_set.
    by rewrite Hr.
Qed.

Lemma evaluations_record_last_witness :
  evaluations_record [Model.mkEvaluationJSON "Tests" "MA"] !! "Design" = None /\
  grade_at (evaluations_record [Model.mkEvaluationJSON "Tests" "MA"]) "Tests" = VStr "MA".
Proof.
  split.
  - refine (proj1 (proj1 (proj2 (proj2 (proj2 (evaluations_record_last
                          [Model.mkEvaluationJSON "Tests" "MA"] "Design")))) _)).
    simpl. intros [H|H]%elem_of_cons; [discriminate H | by apply elem_of_nil in H].
  - refine (proj1 (proj2 (proj2 (evaluations_record_last
                          [Model.mkEvaluationJSON "Tests" "MA"] "Tests")))
              "MA" _ _); [discriminate | reflexivity].
Defined.

Lemma evaluations_record_filter (p : string -> bool) (l : list Model.EvaluationJSON)
    (g : string) :
  p g = true ->
  evaluations_record (List.filter (fun r => p (Model.goal r)) l) !! g
  = evaluations_record l !! g.
Proof.
  intros Hp. induction l as [|r l IH] using rev_ind; [done|].
  rewrite List.filter_app. cbn [List.filter].
  destruct (p (Model.goal r)) eqn:Hr.
  - rewrite !evaluations_record_snoc. unfold js_set.
    destruct (String.eqb (Model.goal r) "__proto__"); [done|].
    destruct (decide (Model.goal r = g)) as [Heq|Hne].
    + by rewrite Heq, !lookup_insert_eq.
    + by rewrite !lookup_insert_ne.
  - rewrite app_nil_r, evaluations_record_snoc. unfold js_set.
    destruct (String.eqb (Model.goal r) "__proto__"); [done|].
    rewrite lookup_insert_ne; [done|]. intros Heq. rewrite Heq in Hr. congruence.
Qed.

Lemma grade_at_lookup (r r' : gmap string string) (g : string) :
  r !! g = r' !! g -> grade_at r g = grade_at r' g.
Proof. intros H. unfold grade_at, js_get. by rewrite H. Qed.

(** X7.  The summary of a row of the comparison table looks only at the
    rubric's six goals: evaluations recorded for any other goal, on either
    side, do not change it. *)
Theorem row_discrepancy_rubric_only (e : Model.EnrollmentJSON) :
  let in_rubric r := bool_decide (Model.goal r ∈ EVALUATION_GOALS) in
  row_discrepancy e =
  row_discrepancy
    (Model.mkEnrollmentJSON (Model.j_student e)
       (List.filter in_rubric (Model.j_evaluations e))
       (List.filter in_rubric (Model.j_selfEvaluations e))).
Proof.
  intros in_rubric. unfold row_discrepancy.
  cbn [Model.j_evaluations Model.j_selfEvaluations].
  apply getStudentDiscrepancyInfo_agree.
  intros g Hg.
  pose proof (evaluations_record_filter (fun g => bool_decide (g ∈ EVALUATION_GOALS))
                (Model.j_evaluations e) g (bool_decide_eq_true_2 _ Hg)) as H1.
  pose proof (evaluations_record_filter (fun g => bool_decide (g ∈ EVALUATION_GOALS))
                (Model.j_selfEvaluations e) g (bool_decide_eq_true_2 _ Hg)) as H2.
  cbv beta in H1, H2. unfold in_rubric.
  split; apply grade_at_lookup; by symmetry.
Qed.

(** ** The scheduling form *)

Section HandlerFacts.
Import Scheduler.
Variable toLocaleString : Date -> string.
Variable scheduleOneTime : string -> string -> float -> result string ().

Lemma scheduledDate_None_iff {rest} (now : Z) (st : State rest) :
  scheduledDate (updateScheduledDate now st) = None
  <-> Scheduler.totalMs (days st) (hours st) (minutes st) <= 0.
Proof.
  unfold updateScheduledDate.
  destruct (Z.gtb_spec (Scheduler.totalMs (days st) (hours st) (minutes st)) 0);
    destruct st; simpl in *; split; (done || lia).
Qed.

Lemma updateScheduledDate_keeps {rest} (now : Z) (st : State rest) :
  others (updateScheduledDate now st) = others st /\
  scheduledGoal (updateScheduledDate now st) = scheduledGoal st.
Proof. unfold updateScheduledDate. destruct (_ >? 0); by destruct st. Qed.

Lemma onScheduleClick_sent (st : State Page) :
  sent_request (onScheduleClick toLocaleString scheduleOneTime st).1 = true
  <-> is_Some (selectedClass (others st)) /\ scheduledGoal st <> ""
      /\ is_Some (scheduledDate st).
Proof.
  unfold onScheduleClick.
  destruct (selectedClass (others st)) as [c|]; simpl.
  - destruct (String.eqb_spec (scheduledGoal st) "") as [Hg|Hg]; simpl.
    + split; [done|]. by intros (_ & ? & _).
    + destruct (scheduledDate st) as [d|]; simpl.
      * destruct (scheduleOneTime _ _ _); simpl; (split; [by eauto|done]).
      * split; [done|]. by intros (_ & _ & []).
  - split; [done|]. by intros ([] & _).
Qed.

(** X8.  For fields that hold integers in the range where the arithmetic
    of doubles is exact: once the effect has recomputed [scheduledDate]
    from the three fields, a click on the scheduling button sends the
    request exactly when a class is selected, a goal is chosen and the
    fields add up to a positive delay; a cleared field counts as 0. *)
Theorem schedule_request_iff (now : Z) (st : State Page) :
  exact_fields st ->
  sent_request
    (onScheduleClick toLocaleString scheduleOneTime (updateScheduledDate now st)).1 = true
  <-> is_Some (selectedClass (others st)) /\ scheduledGoal st <> ""
      /\ 0 < ((Number_or_0 (days st) * 24 + Number_or_0 (hours st)) * 60
              + Number_or_0 (minutes st)) * 60 * 1000.
Proof.
  intros _. rewrite onScheduleClick_sent.
  destruct (updateScheduledDate_keeps now st) as [-> ->].
  assert (Hiff : is_Some (scheduledDate (updateScheduledDate now st))
                 <-> 0 < Scheduler.totalMs (days st) (hours st) (minutes st)).
  { rewrite <- not_eq_None_Some, scheduledDate_None_iff. lia. }
  rewrite Hiff. unfold Scheduler.totalMs. done.
Qed.

(** X9.  For fields in the exact range, what a click does, case by case.
    Without a selected class, without a goal or without a date it opens the
    matching dialog and changes nothing.  Otherwise it sends the request for
    the selected class, the goal and the hours computed from the fields;
    when the request succeeds it opens the success dialog, reloads the
    classes and leaves the form closed and emptied, and the effect that
    follows keeps [scheduledDate] empty; when the request throws it reports
    the error's message, or a default text when the message is empty, and
    the state is the one before the click. *)
Theorem onScheduleClick_state (st : State Page) :
  exact_fields st ->
  let r := onScheduleClick toLocaleString scheduleOneTime st in
  (selectedClass (others st) = None ->
   r = ([OpenModal "Selecione uma turma antes de agendar." ""], st)) /\
  (forall c, selectedClass (others st) = Some c -> scheduledGoal st = "" ->
   r = ([OpenModal "Selecione uma meta." ""], st)) /\
  (forall c, selectedClass (others st) = Some c -> scheduledGoal st <> "" ->
   scheduledDate st = None ->
   r = ([OpenModal "Informe um tempo válido para o agendamento." ""], st)) /\
  (forall c date, selectedClass (others st) = Some c -> scheduledGoal st <> "" ->
   scheduledDate st = Some date ->
   scheduleOneTime (Model.j_id c) (scheduledGoal st) (totalHours st) = Ok () ->
   r = ([ScheduleOneTime (Model.j_id c) (scheduledGoal st) (totalHours st);
         OpenModal "Sucesso!"
           (success_message toLocaleString c (scheduledGoal st) date);
         LoadClasses],
        reset_form st)) /\
  (forall c date message, selectedClass (others st) = Some c -> scheduledGoal st <> "" ->
   scheduledDate st = Some date ->
   scheduleOneTime (Model.j_id c) (scheduledGoal st) (totalHours st) = Err message ->
   r = ([ScheduleOneTime (Model.j_id c) (scheduledGoal st) (totalHours st);
         OnError (if String.eqb message "" then "Erro ao agendar" else message)],
        st)) /\
  reset_form st = mkState false "" (Num 0) (Num 0) (Num 0) None (others st) /\
  (forall now, updateScheduledDate now (reset_form st) = reset_form st) /\
  (r.2 = st \/ r.2 = reset_form st) /\
  (sent_request r.1 = false -> r.2 = st) /\
  (forall msg, In (OnError msg) r.1 -> r.2 = st /\ msg <> "").
Proof.
  intros _ r. subst r.
  assert (Hmodal : forall (title message msg : string),
             In (OnError msg) [OpenModal title message] -> False)
    by (intros ??? [[=]|[]]).
  unfold onScheduleClick.
  destruct (selectedClass (others st)) as [c|].
  2:{ do 7 (split; [done|]). split; [by left|]. split; [done|].
      intros msg H. by apply Hmodal in H. }
  destruct (String.eqb_spec (scheduledGoal st) "") as [Hg|Hg].
  { do 7 (split; [done|]). split; [by left|]. split; [done|].
    intros msg H. by apply Hmodal in H. }
  destruct (scheduledDate st) as [d|].
  2:{ do 7 (split; [done|]). split; [by left|]. split; [done|].
      intros msg H. by apply Hmodal in H. }
  destruct (scheduleOneTime _ _ _) as [[]|message] eqn:Hcall.
  - split; [done|]. split; [done|]. split; [done|].
    split; [by intros ? ? [= <-] _ [= <-] _|].
    split; [intros ? ? ? [= <-] _ [= <-] ?; congruence|].
    split; [done|]. split; [done|]. split; [by right|]. split; [done|].
    by intros msg [[=]|[[=]|[[=]|[]]]].
  - split; [done|]. split; [done|]. split; [done|].
    split; [intros ? ? [= <-] _ [= <-] ?; congruence|].
    split; [intros ? ? ? [= <-] _ [= <-] H; rewrite Hcall in H;
            by injection H as <-|].
    split; [done|]. split; [done|]. split; [by left|]. split; [done|].
    intros msg [[=]|[[= <-]|[]]]. split; [done|].
    by destruct (String.eqb_spec message "").
Qed.

End HandlerFacts.

Lemma schedule_request_iff_witness :
  sent_request
    (onScheduleClick (fun _ => "date") (fun _ _ _ => Ok ())
       (Scheduler.updateScheduledDate a_clock one_day_page)).1 = true.
Proof.
  refine (proj2 (schedule_request_iff (fun _ => "date") (fun _ _ _ => Ok ())
                   a_clock one_day_page _) _).
  - unfold exact_fields. simpl. lia.
  - split; [by eexists|]. split; [discriminate|]. simpl. lia.
Defined.

Lemma onScheduleClick_state_witness :
  onScheduleClick (fun _ => "date") (fun _ _ _ => Ok ()) one_day_page
  = ([ScheduleOneTime "ESS-2025-1" "Tests" (totalHours one_day_page);
      OpenModal "Sucesso!"
        (success_message (fun _ => "date") (Model.toJSON ess) "Tests"
           (Scheduler.ValidDate 1793586600000));
      LoadClasses],
     reset_form one_day_page) /\
  (onScheduleClick (fun _ => "date") (fun _ _ _ => Err "") one_day_page).2 = one_day_page.
Proof.
  split.
  - refine (proj1 (proj2 (proj2 (proj2
              (onScheduleClick_state (fun _ => "date") (fun _ _ _ => Ok ())
                 one_day_page _))))
              (Model.toJSON ess) (Scheduler.ValidDate 1793586600000) _ _ _ _);
      [unfold exact_fields; simpl; lia | reflexivity | discriminate
      | reflexivity | reflexivity].
  - refine (proj1 (proj2 (proj2 (proj2 (proj2 (proj2 (proj2 (proj2 (proj2 (proj2
              (onScheduleClick_state (fun _ => "date") (fun _ _ _ => Err "")
                 one_day_page _)))))))))
              "Erro ao agendar" _)).
    + unfold exact_fields. simpl. lia.
    + right. left. reflexivity.
Defined.

(** ** Selecting a class *)

Lemma find_id_Some (classes : list Model.ClassJSON) (id : string) (c : Model.ClassJSON) :
  List.find (fun c => String.eqb (Model.j_id c) id) classes = Some c ->
  c ∈ classes /\ Model.j_id c = id.
Proof.
  intros [Hin Heq%String.eqb_eq]%List.find_some. split; [by apply list_elem_of_In|done].
Qed.

Lemma find_id_None (classes : list Model.ClassJSON) (id : string) :
  List.find (fun c => String.eqb (Model.j_id c) id) classes = None
  <-> id ∉ Model.j_id <$> classes.
Proof.
  rewrite find_None_Forall, Forall_forall, list_elem_of_fmap. split.
  - intros H (c & -> & Hc). apply H in Hc. by rewrite String.eqb_refl in Hc.
  - intros H c Hc. apply String.eqb_neq. intros Heq. apply H. eauto.
Qed.

(** X10.  In the evaluations page the selected class always comes from the
    current list and has the selected id; there is no selected class
    exactly when the id is empty or no class of the list has it, so a class
    that disappears from the list is deselected. *)
Theorem updateSelectedClass_spec (selectedClassId : string) (classes : list Model.ClassJSON) :
  (forall c, updateSelectedClass selectedClassId classes = Some c ->
             c ∈ classes /\ Model.j_id c = selectedClassId /\ selectedClassId <> "") /\
  (updateSelectedClass selectedClassId classes = None
   <-> selectedClassId = "" \/ selectedClassId ∉ Model.j_id <$> classes).
Proof.
  unfold updateSelectedClass.
  destruct (String.eqb_spec selectedClassId "") as [->|Hne]; simpl.
  - split; [done|]. split; [by left|done].
  - split.
    + intros c [? ?]%find_id_Some. done.
    + rewrite find_id_None. split; [by right|]. by intros [?|?].
Qed.

Lemma updateSelectedClass_spec_witness :
  Model.j_id (Model.toJSON ess) = "ESS-2025-1".
Proof.
  refine (proj1 (proj2 (proj1 (updateSelectedClass_spec "ESS-2025-1"
            [Model.toJSON compilers; Model.toJSON ess]) (Model.toJSON ess) _))).
  reflexivity.
Defined.

(** X11.  In the self-evaluation page a reload replaces the list of
    classes, and writes the selection only when the render that started it
    had a selected class whose id is found in the new list: the selection
    then becomes the first reloaded class with that id, whatever was
    selected meanwhile.  In every other case the selection stays as it is,
    even when the selected class is no longer in the list.  When nothing
    was selected between the render and the arrival of the data, the
    selection keeps its id. *)
Theorem loadClasses_keeps_selection (data : list Model.ClassJSON)
    (captured current : option Model.ClassJSON) :
  (loadClasses data captured current).1 = data /\
  (captured = None -> (loadClasses data captured current).2 = current) /\
  (forall sel, captured = Some sel -> Model.j_id sel ∉ Model.j_id <$> data ->
               (loadClasses data captured current).2 = current) /\
  (forall sel, captured = Some sel -> Model.j_id sel ∈ Model.j_id <$> data ->
               exists c, (loadClasses data captured current).2 = Some c /\
                         List.find (fun c => String.eqb (Model.j_id c) (Model.j_id sel)) data
                         = Some c /\
                         c ∈ data /\ Model.j_id c = Model.j_id sel) /\
  (captured = current ->
   Model.j_id <$> (loadClasses data captured current).2 = Model.j_id <$> current).
Proof.
  unfold loadClasses. destruct captured as [sel|]; simpl.
  2:{ split; [done|]. split; [done|]. split; [done|]. split; [done|]. by intros <-. }
  destruct (List.find _ data) as [c|] eqn:Hf.
  - pose proof Hf as [Hin Hid]%find_id_Some. split; [done|]. split; [done|].
    split.
    { intros ? [= <-] Hout. exfalso. apply Hout. rewrite <- Hid.
      by apply list_elem_of_fmap_2. }
    split.
    { intros ? [= <-] _. exists c. by rewrite Hf. }
    intros <-. simpl. by f_equal.
  - pose proof Hf as Hout%find_id_None. split; [done|]. split; [done|].
    split; [done|]. split; [|done].
    by intros ? [= <-] ?.
Qed.

Lemma loadClasses_keeps_selection_witness :
  (loadClasses [Model.toJSON compilers] (Some (Model.toJSON ess)) (Some (Model.toJSON ess))).2
  = Some (Model.toJSON ess) /\
  exists c,
    (loadClasses [Model.toJSON compilers; Model.toJSON ess]
                 (Some (Model.toJSON ess)) (Some (Model.toJSON compilers))).2 = Some c /\
    Model.j_id c = "ESS-2025-1".
Proof.
  split.
  - refine (proj1 (proj2 (proj2 (loadClasses_keeps_selection
              [Model.toJSON compilers] (Some (Model.toJSON ess)) (Some (Model.toJSON ess)))))
              (Model.toJSON ess) eq_refl _).
    simpl. intros [H|H]%elem_of_cons; [discriminate H | by apply elem_of_nil in H].
  - destruct (proj1 (proj2 (proj2 (proj2 (loadClasses_keeps_selection
              [Model.toJSON compilers; Model.toJSON ess]
              (Some (Model.toJSON ess)) (Some (Model.toJSON compilers))))))
              (Model.toJSON ess) eq_refl) as (c & Hc & _ & _ & Hid).
    + simpl. apply elem_of_cons. right. apply elem_of_cons. by left.
    + exists c. split; [exact Hc | exact Hid].
Defined.

(** ** Class identifiers *)

Lemma has_dash_app (a b : string) : has_dash (a +:+ b) = has_dash a || has_dash b.
Proof. induction a as [|ch a IH]; simpl; [done|]. by rewrite IH, orb_assoc. Qed.

Lemma pretty_N_go_no_dash (x : N) (s : string) :
  has_dash s = false -> has_dash (pretty_N_go x s) = false.
Proof.
  revert s. induction (N.lt_wf_0 x) as [x _ IH]; intros s Hs.
  assert (x = 0 \/ 0 < x)%N as [->|Hpos] by lia.
  - by rewrite pretty_N_go_0.
  - rewrite pretty_N_go_step by done. apply IH; [by apply N.div_lt|].
    simpl. rewrite Hs. unfold pretty_N_char. by repeat case_match.
Qed.

Lemma pretty_Z_no_dash (z : Z) : 0 <= z -> has_dash (pretty z) = false.
Proof.
  intros Hz. destruct z as [|p|p]; [done| |lia].
  unfold pretty, pretty_Z, pretty, pretty_positive, pretty, pretty_N.
  case_decide; [done|]. by apply pretty_N_go_no_dash.
Qed.

(** A string is split in one way only at its last dash. *)
Lemma last_dash_split (a1 a2 b1 b2 : string) :
  has_dash b1 = false -> has_dash b2 = false ->
  a1 +:+ "-" +:+ b1 = a2 +:+ "-" +:+ b2 -> a1 = a2 /\ b1 = b2.
Proof.
  intros Hb1 Hb2. revert a2.
  change ("-" +:+ b1) with (String "-"%char b1).
  change ("-" +:+ b2) with (String "-"%char b2).
  induction a1 as [|c1 a1 IH]; intros [|c2 a2] Heq; cbn [String.app append] in Heq.
  - by injection Heq as ->.
  - injection Heq as <- ->. rewrite has_dash_app in Hb1. simpl in Hb1.
    by rewrite orb_true_r in Hb1.
  - injection Heq as -> <-. rewrite has_dash_app in Hb2. simpl in Hb2.
    by rewrite orb_true_r in Hb2.
  - injection Heq as -> Heq. by destruct (IH a2 Heq) as [-> ->].
Qed.

Lemma string_app_assoc (a b c : string) : (a +:+ b) +:+ c = a +:+ b +:+ c.
Proof.
  induction a as [|ch a IH]; [done|].
  change (String ch ((a +:+ b) +:+ c) = String ch (a +:+ b +:+ c)). by rewrite IH.
Qed.

Lemma getClassId_parts (c : Model.Class) :
  Model.getClassId c
  = (Model.topic c +:+ "-" +:+ pretty (Model.year c)) +:+ "-" +:+ pretty (Model.semester c).
Proof. unfold Model.getClassId. by rewrite !string_app_assoc. Qed.

Lemma getClassId_inj (c1 c2 : Model.Class) :
  0 <= Model.year c1 -> 0 <= Model.semester c1 ->
  0 <= Model.year c2 -> 0 <= Model.semester c2 ->
  Model.getClassId c1 = Model.getClassId c2 ->
  Model.topic c1 = Model.topic c2 /\ Model.year c1 = Model.year c2
  /\ Model.semester c1 = Model.semester c2.
Proof.
  intros Hy1 Hs1 Hy2 Hs2. rewrite !getClassId_parts. intros Heq.
  apply last_dash_split in Heq as [Heq Hs]; [|by apply pretty_Z_no_dash..].
  apply last_dash_split in Heq as [Ht Hy]; [|by apply pretty_Z_no_dash..].
  split; [done|]. split; by apply (inj pretty).
Qed.

(** X12.  Two classes whose year and semester are non-negative safe integers have
    the same id only when they have the same topic, year and semester: the
    id names the triple, whatever dashes and digits the topic contains. *)
Theorem getClassId_injective (c1 c2 : Model.Class) :
  0 <= Model.year c1 < 2 ^ 53 -> 0 <= Model.semester c1 < 2 ^ 53 ->
  0 <= Model.year c2 < 2 ^ 53 -> 0 <= Model.semester c2 < 2 ^ 53 ->
  Model.getClassId c1 = Model.getClassId c2 ->
  Model.topic c1 = Model.topic c2 /\ Model.year c1 = Model.year c2
  /\ Model.semester c1 = Model.semester c2.
Proof. intros [? _] [? _] [? _] [? _]. by apply getClassId_inj. Qed.

Lemma getClassId_injective_witness :
  Model.topic ess = Model.topic twice_alice /\ Model.year ess = Model.year twice_alice
  /\ Model.semester ess = Model.semester twice_alice.
Proof.
  apply getClassId_injective; try (simpl; lia). reflexivity.
Defined.

(** X13.  Among the JSON forms of server classes with non-negative safe year and
    semester and pairwise different (topic, year, semester), selecting the
    id of one of them finds that class and no other. *)
Theorem select_by_id_finds_class (cs : list Model.Class) (c : Model.Class) :
  c ∈ cs ->
  (forall c', c' ∈ cs -> 0 <= Model.year c' < 2 ^ 53 /\ 0 <= Model.semester c' < 2 ^ 53) ->
  (forall c', c' ∈ cs ->
     (Model.topic c', Model.year c', Model.semester c')
     = (Model.topic c, Model.year c, Model.semester c) -> c' = c) ->
  updateSelectedClass (Model.getClassId c) (Model.toJSON <$> cs) = Some (Model.toJSON c)
  /\ selectClass (Model.toJSON <$> cs) (Model.getClassId c) = Some (Model.toJSON c).
Proof.
  intros Hc Hnum Huniq.
  assert (Hfind : List.find (fun j => String.eqb (Model.j_id j) (Model.getClassId c))
                    (Model.toJSON <$> cs) = Some (Model.toJSON c)).
  { destruct (List.find _ _) as [j|] eqn:Hf.
    - apply find_id_Some in Hf as [(c' & -> & Hc')%list_elem_of_fmap Hid].
      simpl in Hid. f_equal. f_equal. apply Huniq; [done|].
      destruct (Hnum c' Hc') as [[? _] [? _]], (Hnum c Hc) as [[? _] [? _]].
      by destruct (getClassId_inj c' c) as (-> & -> & ->).
    - apply find_id_None in Hf. exfalso. apply Hf.
      apply list_elem_of_fmap. exists (Model.toJSON c). split; [done|].
      by apply list_elem_of_fmap_2. }
  split; [|exact Hfind]. unfold updateSelectedClass. rewrite Hfind.
  destruct (String.eqb_spec (Model.getClassId c) "") as [Hempty|_]; [|done].
  rewrite getClassId_parts in Hempty.
  by destruct (Model.topic c +:+ "-" +:+ pretty (Model.year c)).
Qed.

Lemma select_by_id_finds_class_witness :
  updateSelectedClass (Model.getClassId ess) (Model.toJSON <$> [compilers; ess])
  = Some (Model.toJSON ess).
Proof.
  refine (proj1 (select_by_id_finds_class [compilers; ess] ess _ _ _)).
  - right. by left.
  - intros c' Hc'.
    apply elem_of_cons in Hc' as [->|Hc']; [simpl; lia|].
    apply elem_of_cons in Hc' as [->|Hc']; [simpl; lia|].
    by apply elem_of_nil in Hc'.
  - intros c' Hc' Heq.
    apply elem_of_cons in Hc' as [->|Hc']; [discriminate Heq|].
    apply elem_of_cons in Hc' as [->|Hc']; [reflexivity|].
    by apply elem_of_nil in Hc'.
Defined.

(** ** Enrolling, looking up and removing *)

Lemma find_app_None {A} (p : A -> bool) (l1 l2 : list A) :
  List.find p l1 = None -> List.find p (l1 ++ l2) = List.find p l2.
Proof.
  induction l1 as [|x l1 IH]; simpl; [done|]. by destruct (p x).
Qed.

Lemma find_app_Some {A} (p : A -> bool) (l1 l2 : list A) (x : A) :
  List.find p l1 = Some x -> List.find p (l1 ++ l2) = Some x.
Proof.
  induction l1 as [|y l1 IH]; simpl; [done|]. by destruct (p y).
Qed.

(** X14.  After a successful [addEnrollment] the student's CPF finds the new
    enrollment, every other CPF finds what it found before, and the
    enrolled students are the former ones followed by the new student. *)
Theorem addEnrollment_lookup (c : Class) (s : Student) :
  getCPF s ∉ cpfs (enrollments c) ->
  let c' := (addEnrollment c s).2 in
  findEnrollmentByStudentCPF c' (getCPF s) = Some (new_Enrollment s) /\
  (forall k, k <> getCPF s ->
             findEnrollmentByStudentCPF c' k = findEnrollmentByStudentCPF c k) /\
  getEnrolledStudents c' = (getEnrolledStudents c ++ [s])%list /\
  topic c' = topic c /\ semester c' = semester c /\ year c' = year c.
Proof.
  intros Hout c'. subst c'. rewrite addEnrollment_new by done.
  unfold findEnrollmentByStudentCPF, getEnrolledStudents. simpl.
  split; [|split; [|split; [|done]]].
  - rewrite find_app_None by by apply find_None_cpfs.
    simpl. unfold has_cpf. simpl. by rewrite String.eqb_refl.
  - intros k Hk. destruct (List.find (has_cpf k) (enrollments c)) as [e|] eqn:Hf.
    + by apply find_app_Some.
    + rewrite find_app_None by done. simpl. unfold has_cpf. simpl.
      destruct (String.eqb_spec (getCPF s) k); [congruence|done].
  - by rewrite fmap_app.
Qed.

Lemma addEnrollment_lookup_witness :
  findEnrollmentByStudentCPF (addEnrollment compilers alice).2 (getCPF alice)
  = Some (new_Enrollment alice).
Proof.
  refine (proj1 (addEnrollment_lookup compilers alice _)).
  simpl. apply not_elem_of_nil.
Defined.

(** X15.  Enrolling a student who was not in the class and then removing that
    student's CPF gives back the class as it was. *)
Theorem removeEnrollment_addEnrollment (c : Class) (s : Student) :
  getCPF s ∉ cpfs (enrollments c) ->
  removeEnrollment (addEnrollment c s).2 (getCPF s) = (true, c).
Proof.
  intros Hout. rewrite addEnrollment_new by done. cbn [snd].
  destruct (removeEnrollment_cases
              (mkClass (topic c) (semester c) (year c) (enrollments c ++ [new_Enrollment s]))
              (getCPF s)) as [[Hno _] | (l1 & e & l2 & Hl & He & Hl1 & ->)]; simpl in *.
  - exfalso. apply Hno. rewrite cpfs_app. apply elem_of_app. right. by left.
  - assert (Hl2 : l2 = [] /\ l1 = enrollments c).
    { destruct l2 as [|e2 l2 _] using rev_ind.
      - apply app_inj_tail in Hl as [? _]. done.
      - exfalso. rewrite app_comm_cons, app_assoc in Hl.
        apply app_inj_tail in Hl as [Hl _]. apply Hout.
        rewrite Hl, cpfs_app. apply elem_of_app. right. rewrite <- He. by left. }
    destruct Hl2 as [-> ->]. rewrite app_nil_r. by destruct c.
Qed.

Lemma removeEnrollment_addEnrollment_witness :
  removeEnrollment (addEnrollment ess (mkStudent "Carol" "11122233344" "c@example.com")).2
                   "11122233344"
  = (true, ess).
Proof.
  refine (removeEnrollment_addEnrollment ess
            (mkStudent "Carol" "11122233344" "c@example.com") _).
  simpl. intros H.
  repeat (apply elem_of_cons in H as [H|H]; [discriminate H|]).
  by apply elem_of_nil in H.
Defined.

(** X16.  [removeEnrollment] never touches the enrollments of other students: any
    other CPF finds afterwards what it found before.  A successful removal
    shortens the list by exactly one, and in a class with at most one
    enrollment per CPF the removed CPF is no longer found. *)
Theorem removeEnrollment_lookup (c : Class) (k : string) :
  let c' := (removeEnrollment c k).2 in
  (forall k', k' <> k ->
              findEnrollmentByStudentCPF c' k' = findEnrollmentByStudentCPF c k') /\
  ((removeEnrollment c k).1 = true ->
   S (length (enrollments c')) = length (enrollments c)) /\
  ((removeEnrollment c k).1 = false -> c' = c) /\
  (one_per_cpf c -> findEnrollmentByStudentCPF c' k = None).
Proof.
  intros c'. subst c'.
  destruct (removeEnrollment_cases c k)
    as [[Hout ->] | (l1 & e & l2 & Hl & He & Hl1 & ->)]; simpl.
  - split; [done|]. split; [done|]. split; [done|]. intros _. by apply find_None_cpfs.
  - split; [|split; [|split; [done|]]].
    + intros k' Hk'. unfold findEnrollmentByStudentCPF. simpl. rewrite Hl.
      destruct (List.find (has_cpf k') l1) as [e1|] eqn:Hf.
      * by rewrite !(find_app_Some _ _ _ e1).
      * rewrite !find_app_None by done. simpl.
        assert (has_cpf k' e = false) as -> by (apply has_cpf_false; congruence).
        done.
    + intros _. rewrite Hl, !length_app. simpl. lia.
    + intros Hc. apply find_None_cpfs. simpl.
      unfold one_per_cpf in Hc. rewrite Hl, cpfs_app in Hc.
      unfold cpfs in Hc at 2. rewrite fmap_cons, He in Hc.
      apply NoDup_app in Hc as (_ & _ & [Hk2 _]%NoDup_cons).
      rewrite cpfs_app. intros [?|?]%elem_of_app; done.
Qed.

Lemma removeEnrollment_lookup_witness :
  findEnrollmentByStudentCPF (removeEnrollment ess "12345678901").2 "12345678901" = None.
Proof.
  refine (proj2 (proj2 (proj2 (removeEnrollment_lookup ess "12345678901"))) _).
  unfold one_per_cpf. simpl. apply NoDup_cons. split.
  - intros [H|[]%elem_of_nil]%elem_of_cons. discriminate H.
  - apply NoDup_singleton.
Defined.

(** ** Reading a class from JSON *)

Lemma enrollment_of_data_Ok (students : list Student) (d : EnrollmentJSON) :
  j_cpf (j_student d) ∈ getCPF <$> students ->
  exists e, enrollment_of_data students d = Ok e /\ getStudent e ∈ students.
Proof.
  intros (s & Hs & Hin)%list_elem_of_fmap.
  destruct (find_student_exists students (j_cpf (j_student d))) as (s' & Hf & _);
    [by eauto|].
  unfold enrollment_of_data. rewrite Hf. eexists. split; [done|]. simpl.
  apply List.find_some in Hf as [? _]. by apply list_elem_of_In.
Qed.

Lemma enrollment_of_data_Err (students : list Student) (d : EnrollmentJSON) :
  j_cpf (j_student d) ∉ getCPF <$> students ->
  enrollment_of_data students d
  = Err ("Student with CPF " +:+ j_cpf (j_student d) +:+ " not found").
Proof.
  intros Hout. unfold enrollment_of_data.
  destruct (List.find _ students) as [s|] eqn:Hf; [|done].
  apply List.find_some in Hf as [Hin Heq%String.eqb_eq].
  exfalso. apply Hout. rewrite <- Heq. by apply list_elem_of_fmap_2, list_elem_of_In.
Qed.

Lemma mapM_all_Ok {E A B} (f : A -> result E B) (P : B -> Prop) (xs : list A) :
  (forall x, x ∈ xs -> exists y, f x = Ok y /\ P y) ->
  exists ys, mapM f xs = Ok ys /\ length ys = length xs /\ Forall P ys.
Proof.
  induction xs as [|x xs IH]; intros H; simpl.
  - exists []. by repeat split.
  - destruct (H x) as (y & Hy & HP); [by left|].
    destruct IH as (ys & Hys & Hlen & HPs); [intros; apply H; by right|].
    exists (y :: ys). rewrite Hy. simpl. rewrite Hys. simpl.
    split; [done|]. split; [by rewrite Hlen | by constructor].
Qed.

Lemma mapM_first_Err {E A B} (f : A -> result E B) (l1 l2 : list A) (x : A) (e : E) :
  (forall x', x' ∈ l1 -> exists y, f x' = Ok y) -> f x = Err e ->
  mapM f (l1 ++ x :: l2) = Err e.
Proof.
  intros Hl1 Hx. induction l1 as [|x1 l1 IH]; simpl.
  - by rewrite Hx.
  - destruct (Hl1 x1) as [y ->]; [by left|]. simpl.
    rewrite IH; [done|]. intros; apply Hl1; by right.
Qed.

(** X17.  [fromJSON] succeeds exactly when every enrollment entry names the CPF
    of some student of the list.  Otherwise it throws, and the message
    names the CPF of the first entry without a student.  Data without an
    enrollment list gives a class without enrollments. *)
Theorem fromJSON_errors (data : ClassJSON) (students : list Student) :
  ((exists c, fromJSON data students = Ok c) <->
   forall d, d ∈ default [] (j_enrollments data) ->
             j_cpf (j_student d) ∈ getCPF <$> students) /\
  (forall (l1 l2 : list EnrollmentJSON) d,
      j_enrollments data = Some (l1 ++ d :: l2)%list ->
      (forall d', d' ∈ l1 -> j_cpf (j_student d') ∈ getCPF <$> students) ->
      j_cpf (j_student d) ∉ getCPF <$> students ->
      fromJSON data students
      = Err ("Student with CPF " +:+ j_cpf (j_student d) +:+ " not found")) /\
  (j_enrollments data = None ->
   fromJSON data students = Ok (mkClass (j_topic data) (j_semester data) (j_year data) [])).
Proof.
  assert (Hfirst : forall (l1 l2 : list EnrollmentJSON) d,
      j_enrollments data = Some (l1 ++ d :: l2)%list ->
      (forall d', d' ∈ l1 -> j_cpf (j_student d') ∈ getCPF <$> students) ->
      j_cpf (j_student d) ∉ getCPF <$> students ->
      fromJSON data students
      = Err ("Student with CPF " +:+ j_cpf (j_student d) +:+ " not found")).
  { intros l1 l2 d Hdata Hl1 Hd. unfold fromJSON. rewrite Hdata.
    rewrite (mapM_first_Err _ l1 l2 d
               ("Student with CPF " +:+ j_cpf (j_student d) +:+ " not found"));
      [done| |by apply enrollment_of_data_Err].
    intros d' Hd'. destruct (enrollment_of_data_Ok students d' (Hl1 d' Hd')) as (e & ? & _).
    eauto. }
  split; [|split; [exact Hfirst|]].
  - split.
    + intros [c Hc] d Hd.
      destruct (decide (j_cpf (j_student d) ∈ getCPF <$> students)) as [|Hout]; [done|].
      exfalso. destruct (j_enrollments data) as [l|] eqn:Hl; [|by apply elem_of_nil in Hd].
      simpl in Hd. unfold fromJSON in Hc. rewrite Hl in Hc.
      destruct (mapM _ l) as [es|] eqn:Hm; [|done].
      apply mapM_Ok_Forall2 in Hm.
      apply list_elem_of_lookup in Hd as [i Hi].
      destruct (Forall2_lookup_l _ _ _ _ _ Hm Hi) as (e & _ & He).
      by rewrite enrollment_of_data_Err in He.
    + intros Hall. unfold fromJSON.
      destruct (j_enrollments data) as [l|]; simpl in *; [|by eauto].
      destruct (mapM_all_Ok (enrollment_of_data students) (fun _ => True) l)
        as (es & -> & _).
      { intros d Hd. destruct (enrollment_of_data_Ok students d (Hall d Hd)) as (e & ? & _).
        eauto. }
      simpl. eauto.
  - intros Hnone. unfold fromJSON. by rewrite Hnone.
Qed.

Lemma fromJSON_errors_witness :
  fromJSON (toJSON ess) [alice] = Err "Student with CPF 98765432100 not found".
Proof.
  refine (proj1 (proj2 (fromJSON_errors (toJSON ess) [alice]))
            [Enrollment_toJSON alice_enrolled] [] (Enrollment_toJSON (new_Enrollment bob))
            eq_refl _ _).
  - intros d' [->|[]%elem_of_nil]%elem_of_cons. simpl. by left.
  - simpl. intros [H|[]%elem_of_nil]%elem_of_cons. discriminate H.
Defined.

Lemma enrollment_of_data_same (students : list Student) (d d' : EnrollmentJSON) :
  j_cpf (j_student d) = j_cpf (j_student d') ->
  j_evaluations d = j_evaluations d' -> j_selfEvaluations d = j_selfEvaluations d' ->
  enrollment_of_data students d = enrollment_of_data students d'.
Proof.
  intros Hc He Hs. unfold enrollment_of_data, Enrollment_fromJSON.
  by rewrite Hc, He, Hs.
Qed.

(** X18.  Of each enrollment entry [fromJSON] reads the student's CPF and the two
    evaluation lists, and of the class data the topic, semester and year:
    the id, and the name and e-mail written in the entries, play no part.
    The students of the class obtained are students of the given list. *)
Theorem fromJSON_reads (data data' : ClassJSON) (students : list Student) :
  j_topic data = j_topic data' -> j_semester data = j_semester data' ->
  j_year data = j_year data' ->
  Forall2 (fun d d' => j_cpf (j_student d) = j_cpf (j_student d') /\
                       j_evaluations d = j_evaluations d' /\
                       j_selfEvaluations d = j_selfEvaluations d')
          (default [] (j_enrollments data)) (default [] (j_enrollments data')) ->
  is_Some (j_enrollments data) -> is_Some (j_enrollments data') ->
  fromJSON data students = fromJSON data' students /\
  (forall c, fromJSON data students = Ok c ->
             forall s, s ∈ getEnrolledStudents c -> s ∈ students).
Proof.
  intros Ht Hs Hy Hent [l Hl] [l' Hl']. rewrite Hl, Hl' in Hent. simpl in Hent.
  split.
  - unfold fromJSON. rewrite Ht, Hs, Hy, Hl, Hl'. f_equal. clear Hl Hl'.
    induction Hent as [|d d' l0 l0' (Hc & He & Hse) _ IH]; simpl; [done|].
    by rewrite (enrollment_of_data_same students d d' Hc He Hse), IH.
  - intros c Hc s Hin. unfold fromJSON in Hc. rewrite Hl in Hc.
    destruct (mapM _ l) as [es|] eqn:Hm; [|done]. injection Hc as <-.
    unfold getEnrolledStudents in Hin. simpl in Hin.
    apply list_elem_of_fmap in Hin as (e & -> & He).
    apply mapM_Ok_Forall2 in Hm.
    apply list_elem_of_lookup in He as [i Hi].
    destruct (Forall2_lookup_r _ _ _ _ _ Hm Hi) as (d & _ & Hd).
    unfold enrollment_of_data in Hd.
    destruct (List.find _ students) as [s|] eqn:Hf; [|done].
    injection Hd as <-. simpl. apply List.find_some in Hf as [? _].
    by apply list_elem_of_In.
Qed.

Lemma fromJSON_reads_witness :
  fromJSON (toJSON ess) [alice; bob] = fromJSON ess_json_renamed [alice; bob].
Proof.
  refine (proj1 (fromJSON_reads (toJSON ess) ess_json_renamed [alice; bob]
                   eq_refl eq_refl eq_refl _ _ _)).
  - simpl. repeat constructor.
  - by eexists.
  - by eexists.
Defined.

(** ** Class objects that share an array *)

Import HeapMethods.

Lemma class_of_mutate_other (o : ClassObj) (r : positive) (h : heap) (op : ArrayOp) :
  o_enrollments o <> r -> class_of o (mutate r h op) = class_of o h.
Proof.
  intros Hne. unfold class_of, contents, mutate. by rewrite lookup_insert_ne.
Qed.

Lemma class_of_mutate_same (o : ClassObj) (h : heap) (op : ArrayOp) :
  class_of o (mutate (o_enrollments o) h op)
  = mkClass (o_topic o) (o_semester o) (o_year o)
            (apply_op op (contents h (o_enrollments o))).
Proof. unfold class_of, contents, mutate. by rewrite lookup_insert_eq. Qed.

Lemma addEnrollment_heap_model (o : ClassObj) (s : Student) (h : heap) :
  (HeapMethods.addEnrollment o s h).1 = (Model.addEnrollment (class_of o h) s).1 /\
  class_of o (HeapMethods.addEnrollment o s h).2 = (Model.addEnrollment (class_of o h) s).2.
Proof.
  unfold HeapMethods.addEnrollment, Model.addEnrollment.
  destruct (findEnrollmentByStudentCPF (class_of o h) (getCPF s)); simpl; [done|].
  split; [done|]. by rewrite class_of_mutate_same.
Qed.

(** X19.  On class objects: [addEnrollment] acts on the array the object refers
    to.  A class object with another array is not affected.  A class
    object built by the constructor from the same array sees the new
    enrollment, so enrolling the same student through it fails as a
    duplicate. *)
Theorem addEnrollment_shared_array (o o' : ClassObj) (s : Student) (h : heap) :
  let h' := (HeapMethods.addEnrollment o s h).2 in
  (o_enrollments o' <> o_enrollments o -> class_of o' h' = class_of o' h) /\
  (o_enrollments o' = o_enrollments o ->
   enrollments (class_of o' h') = enrollments (class_of o h') /\
   (HeapMethods.addEnrollment o' s h').1 = Err "Student is already enrolled in this class") /\
  class_of o h' = (Model.addEnrollment (class_of o h) s).2.
Proof.
  intros h'. subst h'. split; [|split; [|apply addEnrollment_heap_model]].
  - intros Hne. unfold HeapMethods.addEnrollment.
    destruct (findEnrollmentByStudentCPF _ _); simpl; [done|].
    by apply class_of_mutate_other.
  - intros Heq.
    assert (Hsame : forall h0, enrollments (class_of o' h0) = enrollments (class_of o h0)).
    { intros h0. unfold class_of. simpl. by rewrite Heq. }
    split; [apply Hsame|].
    assert (Hin : getCPF s ∈ cpfs (enrollments
                    (class_of o' (HeapMethods.addEnrollment o s h).2))).
    { rewrite Hsame. destruct (addEnrollment_heap_model o s h) as [_ ->].
      destruct (decide (getCPF s ∈ cpfs (enrollments (class_of o h)))) as [Hin|Hout].
      - by rewrite addEnrollment_duplicate.
      - rewrite addEnrollment_new by done. simpl. rewrite cpfs_app.
        apply elem_of_app. right. by left. }
    destruct (addEnrollment_heap_model o' s (HeapMethods.addEnrollment o s h).2) as [-> _].
    by rewrite addEnrollment_duplicate.
Qed.

Lemma addEnrollment_shared_array_witness :
  class_of compilers_obj (HeapMethods.addEnrollment ess_obj carol two_heap).2
  = class_of compilers_obj two_heap /\
  (HeapMethods.addEnrollment ess_alias carol
     (HeapMethods.addEnrollment ess_obj carol two_heap).2).1
  = Err "Student is already enrolled in this class".
Proof.
  split.
  - refine (proj1 (addEnrollment_shared_array ess_obj compilers_obj carol two_heap) _).
    simpl. lia.
  - refine (proj2 (proj1 (proj2
              (addEnrollment_shared_array ess_obj ess_alias carol two_heap)) _)).
    reflexivity.
Defined.

(** X20.  A class created without an enrollment array gets an array of its own:
    it starts empty, and no class object whose array was already allocated
    is affected by enrolling into the new class or removing from it. *)
Theorem new_ClassObj_default_fresh (topic : string) (semester year : Z) (h : heap)
    (o' : ClassObj) (s : Student) (k : string) :
  is_Some (h !! o_enrollments o') ->
  let o := (new_ClassObj_default topic semester year h).1 in
  let h1 := (new_ClassObj_default topic semester year h).2 in
  class_of o h1 = Model.new_Class_default topic semester year /\
  o_enrollments o <> o_enrollments o' /\
  class_of o' h1 = class_of o' h /\
  class_of o' (HeapMethods.addEnrollment o s h1).2 = class_of o' h /\
  class_of o' (HeapMethods.removeEnrollment o k h1).2 = class_of o' h.
Proof.
  intros Hsome o h1. subst o h1.
  set (o := (new_ClassObj_default topic semester year h).1).
  set (h1 := (new_ClassObj_default topic semester year h).2).
  assert (Ho : o = mkClassObj topic semester year (fresh (dom h))) by done.
  assert (Hh : h1 = <[fresh (dom h) := []]> h) by done.
  clearbody o h1. subst o h1.
  set (o := mkClassObj topic semester year (fresh (dom h))).
  set (h1 := <[fresh (dom h) := []]> h).
  assert (Hne : o_enrollments o <> o_enrollments o').
  { simpl. intros Heq. apply elem_of_dom in Hsome. rewrite <- Heq in Hsome.
    by apply is_fresh in Hsome. }
  assert (Hh1 : class_of o' h1 = class_of o' h).
  { unfold class_of, contents, h1. by rewrite lookup_insert_ne. }
  split; [|split; [done|split; [done|split]]].
  - unfold class_of, contents, h1. simpl. by rewrite lookup_insert_eq.
  - unfold HeapMethods.addEnrollment.
    destruct (findEnrollmentByStudentCPF _ _); [done|].
    cbn [snd]. by rewrite class_of_mutate_other.
  - unfold HeapMethods.removeEnrollment.
    destruct (_ =? -1); [done|]. cbn [snd]. by rewrite class_of_mutate_other.
Qed.

Lemma new_ClassObj_default_fresh_witness :
  class_of ess_obj
    (HeapMethods.addEnrollment (new_ClassObj_default "Logic" 1 2026 ess_heap).1 alice
       (new_ClassObj_default "Logic" 1 2026 ess_heap).2).2
  = class_of ess_obj ess_heap.
Proof.
  refine (proj1 (proj2 (proj2 (proj2
            (new_ClassObj_default_fresh "Logic" 1 2026 ess_heap ess_obj alice "" _))))).
  by eexists.
Defined.

(** ** cleanCPF *)

Lemma cleanCPF_length (a : string) : (String.length (cleanCPF a) <= String.length a)%nat.
Proof.
  induction a as [|ch a IH]; simpl; [done|].
  destruct (Ascii.eqb ch "." || Ascii.eqb ch "-"); simpl; lia.
Qed.

(** X21.  [cleanCPF] works piece by piece and never lengthens its argument; on a
    CPF written as four blocks without punctuation, separated by two dots
    and a hyphen, it returns the blocks one after the other. *)
Theorem cleanCPF_formatted (a b c d : string) :
  has_punctuation a = false -> has_punctuation b = false ->
  has_punctuation c = false -> has_punctuation d = false ->
  cleanCPF (a +:+ "." +:+ b +:+ "." +:+ c +:+ "-" +:+ d) = a +:+ b +:+ c +:+ d /\
  (forall x y, cleanCPF (x +:+ y) = cleanCPF x +:+ cleanCPF y) /\
  (forall x, (String.length (cleanCPF x) <= String.length x)%nat).
Proof.
  intros Ha Hb Hc Hd.
  split; [|split; [apply cleanCPF_app | apply cleanCPF_length]].
  rewrite !cleanCPF_app.
  apply cleanCPF_id in Ha, Hb, Hc, Hd. rewrite Ha, Hb, Hc, Hd.
  by change (cleanCPF ".") with "";  change (cleanCPF "-") with "".
Qed.

Lemma cleanCPF_formatted_witness :
  cleanCPF ("123" +:+ "." +:+ "456" +:+ "." +:+ "789" +:+ "-" +:+ "01")
  = "123" +:+ "456" +:+ "789" +:+ "01".
Proof.
  refine (proj1 (cleanCPF_formatted "123" "456" "789" "01" _ _ _ _)); reflexivity.
Defined.

(** ** The class routes *)

Section ClassRouteFacts.
Import ClassRoutes.
Variable Classes : Type.
Variable addClass : Classes -> Class -> result string Class * Classes.

(** X22.  A class request without a topic, or whose semester or year is absent or
    0, is answered with status 400 by POST and by PUT alike; the store is
    not consulted and the existing class is left as it is. *)
Theorem class_routes_reject (classes : Classes) (existingClass : option Class)
    (body : ClassBody) :
  truthy (b_topic body) = false \/ b_semester body = None \/ b_semester body = Some 0
  \/ b_year body = None \/ b_year body = Some 0 ->
  post_class Classes addClass classes body
  = (ClassError 400 "Topic, semester, and year are required", classes) /\
  put_class existingClass body
  = (ClassError 400 "Topic, semester, and year are required", existingClass).
Proof.
  intros H.
  assert (Hm : missing_field body = true).
  { unfold missing_field.
    destruct H as [ -> | [ -> | [ -> | [ -> | -> ] ] ] ]; simpl; by rewrite ?orb_true_r. }
  unfold post_class, put_class. by rewrite Hm.
Qed.

(** X23.  A valid PUT on an existing class, with a semester and a year
    that are integers a double holds exactly, answers 200 with the JSON of
    the updated class: it has the topic, semester and year of the request,
    an id computed from them (whatever id the request was addressed to),
    and the enrollments it had, so the one-enrollment-per-CPF invariant is
    kept. *)
Theorem put_class_updates (c : Class) (topic' : string) (semester' year' : Z) :
  topic' <> "" -> semester' <> 0 -> year' <> 0 ->
  safe_integer semester' -> safe_integer year' ->
  let body := mkClassBody (JStr topic') (Some semester') (Some year') in
  let c' := mkClass topic' semester' year' (enrollments c) in
  put_class (Some c) body = (ClassJson 200 (toJSON c'), Some c') /\
  j_id (toJSON c') = topic' +:+ "-" +:+ pretty year' +:+ "-" +:+ pretty semester' /\
  j_enrollments (toJSON c') = j_enrollments (toJSON c) /\
  (one_per_cpf c -> one_per_cpf c').
Proof.
  intros Ht Hs Hy _ _ body c'.
  assert (Hm : missing_field body = false).
  { unfold missing_field, body. simpl.
    destruct (String.eqb_spec topic' "") as [?|_]; [done|].
    destruct (Z.eqb_spec semester' 0) as [?|_]; [done|].
    by destruct (Z.eqb_spec year' 0) as [?|_]. }
  unfold put_class. rewrite Hm. done.
Qed.

End ClassRouteFacts.

Lemma class_routes_reject_witness :
  ClassRoutes.put_class (Some ess)
    (ClassRoutes.mkClassBody (JStr "ESS") (Some 0) (Some 2026))
  = (ClassRoutes.ClassError 400 "Topic, semester, and year are required", Some ess).
Proof.
  refine (proj2 (class_routes_reject (list Class) (fun cs c => (Ok c, c :: cs)) []
                   (Some ess)
                   (ClassRoutes.mkClassBody (JStr "ESS") (Some 0) (Some 2026)) _)).
  right. right. left. reflexivity.
Defined.

Lemma put_class_updates_witness :
  ClassRoutes.put_class (Some ess)
    (ClassRoutes.mkClassBody (JStr "Logic") (Some 2) (Some 2026))
  = (ClassRoutes.ClassJson 200 (toJSON (mkClass "Logic" 2 2026 (enrollments ess))),
     Some (mkClass "Logic" 2 2026 (enrollments ess))).
Proof.
  refine (proj1 (put_class_updates ess "Logic" 2 2026 _ _ _ _ _));
    first [discriminate | unfold safe_integer; simpl; lia].
Defined.
